(** * React-useState: the login form and the two token-auth servers

    A shallow embedding of the three source files:

    - the React login form ([Form], the [App] component);
    - the single-user server ([JwtDemo], "Single-file Express app with
      JWT-protected routes");
    - the role-based server ([Rbac], "RBAC demo: Admin / Moderator / User
      with JWT").

    JavaScript values are modelled by [Js.jsval], numbers being IEEE
    doubles.  A middleware or route handler is a computation in the
    [Express.handler] monad: it calls [next()], sends a response or
    throws, and the calls it makes into [jsonwebtoken] are logged.  The
    module-level constants that the handlers close over ([JWT_SECRET],
    [JWT_EXPIRES_IN], the demo credentials) are passed as a record of
    [globals], which [start] computes from [process.env].  The
    [jsonwebtoken] library and the clock are parameters.  Body parsing
    and route matching are Express's: a request arrives with its parsed
    body and with the route it was matched to.  The start-up logging of
    [app.listen] is not modelled. *)

From Stdlib Require Import List String Ascii ZArith Bool Lia.
From Stdlib Require Import PrimFloat Uint63.
Import ListNotations.
Local Open Scope Z_scope.
Local Open Scope string_scope.
Set Warnings "-register-all".

(** ** JavaScript values *)

Module Js.

(** The values that [express.json()] and [jwt.verify] can hand to the
    code: JSON values plus [undefined].  An object is the list of its own
    properties in insertion order. *)
Inductive jsval : Type :=
| JUndefined
| JNull
| JBool (b : bool)
| JNum (x : float)
| JStr (s : string)
| JArr (items : list jsval)
| JObj (props : list (string * jsval)).

(** [!!v]: everything is truthy but [undefined], [null], [false], [+0],
    [-0], [NaN] and the empty string. *)
Definition truthy (v : jsval) : bool :=
  match v with
  | JUndefined | JNull => false
  | JBool b => b
  | JNum x => negb (PrimFloat.eqb x 0%float || negb (PrimFloat.eqb x x))
  | JStr s => negb (s =? "")
  | JArr _ | JObj _ => true
  end.

(** [a || b] *)
Definition js_or (a b : jsval) : jsval := if truthy a then a else b.

Fixpoint assoc (k : string) (props : list (string * jsval)) : jsval :=
  match props with
  | [] => JUndefined
  | (k', v) :: rest => if k' =? k then v else assoc k rest
  end.

(** [v.k] for the property names the servers read ([username],
    [password], [role], [name], [email]): an own property of an object;
    [undefined] on an object without it and on every primitive and array,
    whose prototypes carry none of these names.  On [undefined] and
    [null] the access raises a [TypeError] ([None]). *)
Definition get (v : jsval) (k : string) : option jsval :=
  match v with
  | JUndefined | JNull => None
  | JObj props => Some (assoc k props)
  | _ => Some JUndefined
  end.

(** [v?.k] *)
Definition get_opt (v : jsval) (k : string) : jsval :=
  match get v k with
  | Some x => x
  | None => JUndefined
  end.

(** [s === v] for a string [s] *)
Definition str_eq (s : string) (v : jsval) : bool :=
  match v with
  | JStr s' => s =? s'
  | _ => false
  end.

(** [arr.includes(v)] for an array of strings: SameValueZero against each
    element. *)
Definition includes (arr : list string) (v : jsval) : bool :=
  existsb (fun s => str_eq s v) arr.

(** [Object.keys(v)] *)
Definition keys (v : jsval) : list string :=
  match v with
  | JObj props => map fst props
  | _ => []
  end.

(** [s.split(" ")]: the pieces between single spaces; never empty. *)
Fixpoint split_acc (cur : string) (s : string) : list string :=
  match s with
  | EmptyString => [cur]
  | String c rest =>
      if Ascii.eqb c " "%char
      then cur :: split_acc "" rest
      else split_acc (cur ++ String c "") rest
  end.

Definition split (s : string) : list string := split_acc "" s.

(** [process.env.X || fallback]: an unset variable is [undefined], and a
    variable set to the empty string is falsy as well. *)
Definition env_or (x : option string) (fallback : string) : string :=
  match x with
  | Some s => if s =? "" then fallback else s
  | None => fallback
  end.

(** [`${v}`]: the string a template literal interpolates.  The printing
    of a number is the runtime's ([Number::toString]) and is a parameter. *)
Section ToString.
Variable number_to_string : float -> string.

Fixpoint to_string (v : jsval) : string :=
  match v with
  | JUndefined => "undefined"
  | JNull => "null"
  | JBool true => "true"
  | JBool false => "false"
  | JNum x => number_to_string x
  | JStr s => s
  | JArr items =>
      (* [Array.prototype.join]: [undefined] and [null] print as nothing *)
      (fix join (l : list jsval) : string :=
         let item x :=
           match x with
           | JUndefined | JNull => ""
           | _ => to_string x
           end in
         match l with
         | [] => ""
         | [x] => item x
         | x :: rest => item x ++ "," ++ join rest
         end) items
  | JObj _ => "[object Object]"
  end.
End ToString.

End Js.
Import Js.


(** ** Express: requests, responses, middleware *)

Module Express.

(** What [res.status(n).json(body)] sends. *)
Record response : Type := { res_status : Z; res_body : jsval }.

(** The parts of [req] the servers read: the [Authorization] header
    ([req.get("Authorization")], [None] when the header is missing), the
    body as parsed by [express.json()] ([JUndefined] when there is none),
    and [req.user], which [verifyJwt] sets. *)
Record request : Type :=
  { req_authorization : option string; req_body : jsval; req_user : jsval }.

Definition set_user (req : request) (decoded : jsval) : request :=
  {| req_authorization := req_authorization req;
     req_body := req_body req;
     req_user := decoded |}.

(** The calls into [jsonwebtoken] a request makes, in order. *)
Inductive call : Type :=
| Sign (payload : jsval)
| Verify (token : string).

(** A middleware or handler ends in one of three ways: it calls [next()],
    it sends a response, or it throws (Express then answers through its
    default error handler, with status 500). *)
Inductive outcome (A : Type) : Type :=
| Next (a : A)
| Respond (r : response)
| Throw (message : string).
Arguments Next {A} a.
Arguments Respond {A} r.
Arguments Throw {A} message.

Definition handler (A : Type) : Type := (list call * outcome A)%type.

Definition next {A} (a : A) : handler A := ([], Next a).

Definition throw {A} (message : string) : handler A := ([], Throw message).

(** [res.status(status).json(body)]; a bare [res.json(body)] has status 200. *)
Definition json {A} (status : Z) (body : jsval) : handler A :=
  ([], Respond {| res_status := status; res_body := body |}).

Definition bind {A B} (m : handler A) (k : A -> handler B) : handler B :=
  match m with
  | (l, Next a) => let (l', o) := k a in ((l ++ l')%list, o)
  | (l, Respond r) => (l, Respond r)
  | (l, Throw e) => (l, Throw e)
  end.

Notation "x <- m ;; k" := (bind m (fun x => k))
  (at level 61, m at next level, right associativity).

(** [v.k] inside a handler: a [TypeError] on [undefined] and [null]. *)
Definition member (v : jsval) (k : string) : handler jsval :=
  match get v k with
  | Some x => next x
  | None => throw "TypeError: Cannot read properties of undefined"
  end.

(** The library calls made while handling the request. *)
Definition calls {A} (h : handler A) : list call := fst h.

(** The response the handler itself sent, if it sent one. *)
Definition sent {A} (h : handler A) : option response :=
  match snd h with
  | Respond r => Some r
  | _ => None
  end.

Definition status {A} (h : handler A) : option Z :=
  option_map res_status (sent h).

(** The environment variables the servers read at start-up. *)
Record process_env : Type :=
  { env_PORT : option string;
    env_JWT_SECRET : option string;
    env_JWT_EXPIRES_IN : option string }.

(** The [jsonwebtoken] library, which is not part of the repository.
    [jwt_sign now payload secret expiresIn] is
    [jwt.sign(payload, secret, { expiresIn })] at clock time [now] (in
    seconds): the token, or the message of the error it throws.
    [jwt_verify now token secret] is what [jwt.verify] passes to its
    callback: [err.message], or the decoded payload.  [jwt_expiry now
    expiresIn] is the [exp] claim the library computes for a token signed
    at [now], when [expiresIn] is a time span it can read. *)
Class Jsonwebtoken : Type :=
  { jwt_sign : Z -> jsval -> string -> string -> string + string;
    jwt_verify : Z -> string -> string -> string + jsval;
    jwt_expiry : Z -> string -> option Z }.

(** The runtime's printing of numbers. *)
Class Runtime : Type := { number_to_string : float -> string }.

Definition sign `{Jsonwebtoken} (now : Z) (payload : jsval)
    (secret expiresIn : string) : handler string :=
  ([Sign payload],
   match jwt_sign now payload secret expiresIn with
   | inr token => Next token
   | inl message => Throw message
   end).

End Express.
Import Express.

(** ** The single-user server: "Single-file Express app with JWT-protected routes" *)

Module JwtDemo.

Record user : Type :=
  { username : string; password : string; name : string; email : string }.

(** The module-level constants of the file, which every handler closes
    over. *)
Record globals : Type :=
  { PORT : jsval;
    JWT_SECRET : string;
    JWT_EXPIRES_IN : string;
    DEMO_USER : user }.

(** The constants as the file computes them when the process starts. *)
Definition start (env : process_env) : globals :=
  {| PORT := match env_PORT env with
             | Some p => if p =? "" then JNum 3000%float else JStr p
             | None => JNum 3000%float
             end;
     JWT_SECRET := env_or (env_JWT_SECRET env) "please_change_this_secret_in_prod";
     JWT_EXPIRES_IN := env_or (env_JWT_EXPIRES_IN env) "1h";
     DEMO_USER := {| username := "demo";
                     password := "secret123";
                     name := "Demo User";
                     email := "demo@example.com" |} |}.

Inductive route : Type :=
| GET_root
| POST_login
| GET_protected
| GET_profile
| unmatched.

Section Server.
Context {J : Jsonwebtoken}.
Variable g : globals.
Variable now : Z.

Definition signToken (payload : jsval) : handler string :=
  sign now payload (JWT_SECRET g) (JWT_EXPIRES_IN g).

Definition verifyJwt (req : request) : handler request :=
  let authHeader :=
    match req_authorization req with Some h => h | None => "" end in
  if authHeader =? "" then
    json 401 (JObj [("error", JStr "Missing Authorization header")])
  else
    let parts := split authHeader in
    if negb (Nat.eqb (List.length parts) 2)
       || negb (match nth_error parts 0 with
                | Some p => p =? "Bearer"
                | None => false
                end)
    then
      json 401 (JObj [("error",
        JStr "Malformed Authorization header. Expected 'Bearer <token>'")])
    else
      let token := nth 1 parts "" in
      ([Verify token],
       match jwt_verify now token (JWT_SECRET g) with
       | inl message =>
           Respond {| res_status := 401;
                      res_body := JObj [("error", JStr "Invalid or expired token");
                                        ("details", JStr message)] |}
       | inr decoded => Next (set_user req decoded)
       end).

Definition root (req : request) : handler request :=
  json 200 (JObj [("ok", JBool true);
                  ("message",
                   JStr "JWT protected routes demo. POST /login to get a token.")]).

(** The object literal that [/login] signs. *)
Definition login_payload : jsval :=
  JObj [("username", JStr (username (DEMO_USER g)));
        ("name", JStr (name (DEMO_USER g)));
        ("email", JStr (email (DEMO_USER g)))].

Definition login (req : request) : handler request :=
  let body := js_or (req_body req) (JObj []) in
  usr <- member body "username" ;;
  pwd <- member body "password" ;;
  if negb (truthy usr) || negb (truthy pwd) then
    json 400 (JObj [("error", JStr "username and password required")])
  else if negb (str_eq (username (DEMO_USER g)) usr)
          || negb (str_eq (password (DEMO_USER g)) pwd) then
    json 401 (JObj [("error", JStr "Invalid username or password")])
  else
    token <- signToken login_payload ;;
    json 200 (JObj [("token", JStr token);
                    ("expiresIn", JStr (JWT_EXPIRES_IN g))]).

Definition protected (req : request) : handler request :=
  json 200 (JObj [("message", JStr "You accessed a protected resource");
                  ("user", req_user req)]).

Definition profile (req : request) : handler request :=
  usr <- member (req_user req) "username" ;;
  nam <- member (req_user req) "name" ;;
  eml <- member (req_user req) "email" ;;
  json 200 (JObj [("profile",
                   JObj [("username", usr); ("name", nam); ("email", eml);
                         ("joined", JStr "2024-01-01")])]).

Definition fallback (req : request) : handler request :=
  json 404 (JObj [("error", JStr "Not found")]).

(** The route table, in registration order; a chain that ends in
    [next()] falls through to the fallback. *)
Definition app (r : route) (req : request) : handler request :=
  match r with
  | GET_root => req' <- root req ;; fallback req'
  | POST_login => req' <- login req ;; fallback req'
  | GET_protected =>
      req1 <- verifyJwt req ;; req2 <- protected req1 ;; fallback req2
  | GET_profile =>
      req1 <- verifyJwt req ;; req2 <- profile req1 ;; fallback req2
  | unmatched => fallback req
  end.
End Server.

End JwtDemo.

(** ** The role-based server: "RBAC demo: Admin / Moderator / User with JWT" *)

Module Rbac.

Record user : Type :=
  { username : string; password : string; role : string; name : string }.

Record globals : Type :=
  { PORT : jsval;
    JWT_SECRET : string;
    JWT_EXPIRES_IN : string;
    DEMO_USERS : list user }.

Definition start (env : process_env) : globals :=
  {| PORT := match env_PORT env with
             | Some p => if p =? "" then JNum 3000%float else JStr p
             | None => JNum 3000%float
             end;
     JWT_SECRET := env_or (env_JWT_SECRET env) "please_change_this_secret_in_prod";
     JWT_EXPIRES_IN := env_or (env_JWT_EXPIRES_IN env) "2h";
     DEMO_USERS :=
       [ {| username := "admin1"; password := "adminpass";
            role := "admin"; name := "Admin One" |};
         {| username := "mod1"; password := "modpass";
            role := "moderator"; name := "Moderator One" |};
         {| username := "alice"; password := "alicepw";
            role := "user"; name := "Alice" |} ] |}.

Inductive route : Type :=
| GET_root
| POST_login
| GET_profile
| GET_moderator
| GET_admin
| POST_moderation_action
| unmatched.

Section Server.
Context {J : Jsonwebtoken} {R : Runtime}.
Variable g : globals.
Variable now : Z.

Definition signToken (payload : jsval) : handler string :=
  sign now payload (JWT_SECRET g) (JWT_EXPIRES_IN g).

Definition verifyJwt (req : request) : handler request :=
  let authHeader :=
    match req_authorization req with Some h => h | None => "" end in
  if authHeader =? "" then
    json 401 (JObj [("error", JStr "Missing Authorization header")])
  else
    let parts := split authHeader in
    if negb (Nat.eqb (List.length parts) 2)
       || negb (match nth_error parts 0 with
                | Some p => p =? "Bearer"
                | None => false
                end)
    then
      json 401 (JObj [("error",
        JStr "Malformed Authorization header. Expected 'Bearer <token>'")])
    else
      let token := nth 1 parts "" in
      ([Verify token],
       match jwt_verify now token (JWT_SECRET g) with
       | inl message =>
           Respond {| res_status := 401;
                      res_body := JObj [("error", JStr "Invalid or expired token");
                                        ("details", JStr message)] |}
       | inr decoded => Next (set_user req decoded)
       end).

(** [!req.user || !req.user.role]: the role is read only when
    [req.user] is truthy. *)
Definition no_role (req : request) : handler bool :=
  if negb (truthy (req_user req)) then next true
  else r <- member (req_user req) "role" ;; next (negb (truthy r)).

Definition authorizeRoles (allowedRoles : list string) (req : request)
  : handler request :=
  missing <- no_role req ;;
  if missing then
    json 403 (JObj [("error", JStr "Access denied (no role present)")])
  else
    r <- member (req_user req) "role" ;;
    if negb (includes allowedRoles r) then
      json 403 (JObj [("error", JStr "Access denied (insufficient role)")])
    else next req.

Definition root (req : request) : handler request :=
  json 200 (JObj [("ok", JBool true);
                  ("message", JStr "RBAC demo. POST /login to get a token.")]).

(** The object literal that [/login] signs for the matched record. *)
Definition login_payload (u : user) : jsval :=
  JObj [("username", JStr (username u));
        ("role", JStr (role u));
        ("name", JStr (name u))].

Definition login (req : request) : handler request :=
  let body := js_or (req_body req) (JObj []) in
  usr <- member body "username" ;;
  pwd <- member body "password" ;;
  if negb (truthy usr) || negb (truthy pwd) then
    json 400 (JObj [("error", JStr "username and password required in body")])
  else
    match find (fun u => str_eq (username u) usr && str_eq (password u) pwd)
               (DEMO_USERS g) with
    | None => json 401 (JObj [("error", JStr "Invalid username or password")])
    | Some u =>
        token <- signToken (login_payload u) ;;
        json 200 (JObj [("token", JStr token);
                        ("expiresIn", JStr (JWT_EXPIRES_IN g));
                        ("user", JObj [("username", JStr (username u));
                                       ("role", JStr (role u));
                                       ("name", JStr (name u))])])
    end.

Definition profile (req : request) : handler request :=
  json 200 (JObj [("message", JStr "Profile data"); ("user", req_user req)]).

Definition moderator (req : request) : handler request :=
  json 200 (JObj [("message", JStr "Moderator dashboard"); ("user", req_user req)]).

Definition admin (req : request) : handler request :=
  json 200 (JObj [("message", JStr "Admin dashboard"); ("user", req_user req)]).

Definition moderation_action (req : request) : handler request :=
  let allowed := ["moderator"; "admin"] in
  if negb (includes allowed (get_opt (req_user req) "role")) then
    json 403 (JObj [("error", JStr "Not allowed to perform moderation actions")])
  else
    usr <- member (req_user req) "username" ;;
    r <- member (req_user req) "role" ;;
    json 200 (JObj [("message",
      JStr ("Action performed by " ++ to_string number_to_string usr
            ++ " (" ++ to_string number_to_string r ++ ")"))]).

Definition fallback (req : request) : handler request :=
  json 404 (JObj [("error", JStr "Not found")]).

Definition app (r : route) (req : request) : handler request :=
  match r with
  | GET_root => req' <- root req ;; fallback req'
  | POST_login => req' <- login req ;; fallback req'
  | GET_profile =>
      req1 <- verifyJwt req ;; req2 <- profile req1 ;; fallback req2
  | GET_moderator =>
      req1 <- verifyJwt req ;;
      req2 <- authorizeRoles ["moderator"; "admin"] req1 ;;
      req3 <- moderator req2 ;; fallback req3
  | GET_admin =>
      req1 <- verifyJwt req ;;
      req2 <- authorizeRoles ["admin"] req1 ;;
      req3 <- admin req2 ;; fallback req3
  | POST_moderation_action =>
      req1 <- verifyJwt req ;; req2 <- moderation_action req1 ;; fallback req2
  | unmatched => fallback req
  end.
End Server.

End Rbac.

(** ** The login form: the [App] component *)

Module Form.

(** The two [useState] cells.  [formData] is a JavaScript object whose
    values are the strings typed into the inputs. *)
Record state : Type :=
  { formData : list (string * string); error : string }.

Definition initial : state :=
  {| formData := [("username", ""); ("password", "")]; error := "" |}.

(** What the handlers do besides updating the state. *)
Inductive effect : Type :=
| PreventDefault
| ConsoleLog (label value : string)
| Alert (message : string).

(** [formData.k]: [None] is [undefined]. *)
Fixpoint field (k : string) (o : list (string * string)) : option string :=
  match o with
  | [] => None
  | (k', v) :: rest => if k' =? k then Some v else field k rest
  end.

(** [{ ...o, [k]: v }] *)
Fixpoint assign (k v : string) (o : list (string * string))
  : list (string * string) :=
  match o with
  | [] => [(k, v)]
  | (k', v') :: rest =>
      if k' =? k then (k, v) :: rest else (k', v') :: assign k v rest
  end.

Definition falsy (x : option string) : bool :=
  match x with
  | Some s => s =? ""
  | None => true
  end.

Definition interpolate (x : option string) : string :=
  match x with
  | Some s => s
  | None => "undefined"
  end.

Definition warning : string := "⚠️ Both fields are required!".

(** [handleChange(e)] with [e.target.name = name] and
    [e.target.value = value]. *)
Definition handleChange (name value : string) (st : state) : state :=
  {| formData := assign name value (formData st); error := error st |}.

Definition handleSubmit (st : state) : state * list effect :=
  if falsy (field "username" (formData st))
     || falsy (field "password" (formData st))
  then
    ({| formData := formData st; error := warning |}, [PreventDefault])
  else
    ({| formData := formData st; error := "" |},
     [PreventDefault;
      ConsoleLog "Username:" (interpolate (field "username" (formData st)));
      ConsoleLog "Password:" (interpolate (field "password" (formData st)));
      Alert ("Logged in as: " ++ interpolate (field "username" (formData st)))]).

(** [{error && <div>{error}</div>}]: the message on screen, if any. *)
Definition shown (st : state) : option string :=
  if error st =? "" then None else Some (error st).

End Form.

(** ** What is assumed of [jsonwebtoken] *)

Module Contract.

(** A whole number of seconds as a JavaScript number. *)
Definition num (z : Z) : float :=
  if (z <? 0)%Z then PrimFloat.opp (PrimFloat.of_uint63 (Uint63.of_Z (- z)))
  else PrimFloat.of_uint63 (Uint63.of_Z z).

(** An object literal whose values are all strings. *)
Definition string_object (fields : list (string * string)) : jsval :=
  JObj (map (fun kv => (fst kv, JStr (snd kv))) fields).

(** The claims [jwt.sign] adds to the payload. *)
Definition registered (iat exp : Z) : list (string * jsval) :=
  [("iat", JNum (num iat)); ("exp", JNum (num exp))].

(** The payloads the contract speaks about: distinct keys, none of them
    a claim the library treats specially. *)
Definition plain (fields : list (string * string)) : Prop :=
  NoDup (map fst fields)
  /\ ~ In "iat" (map fst fields)
  /\ ~ In "exp" (map fst fields)
  /\ ~ In "nbf" (map fst fields).

(** The round trip through [jwt.sign] and [jwt.verify] with one secret:
    signing succeeds only when [expiresIn] is a time span the library
    reads; a token is one word (base64url segments joined by dots), so
    [split] leaves it whole; and until the clock reaches the [exp] claim,
    verification yields the payload followed by [iat] and [exp]. *)
Class JwtContract (J : Jsonwebtoken) : Prop :=
  { sign_expiry :
      forall now payload secret expiresIn token,
        jwt_sign now payload secret expiresIn = inr token ->
        exists exp, jwt_expiry now expiresIn = Some exp;
    sign_one_word :
      forall now payload secret expiresIn token,
        jwt_sign now payload secret expiresIn = inr token ->
        split token = [token];
    verify_signed :
      forall now fields secret expiresIn token exp t,
        plain fields ->
        jwt_sign now (string_object fields) secret expiresIn = inr token ->
        jwt_expiry now expiresIn = Some exp ->
        (t < exp)%Z ->
        jwt_verify t token secret
        = inr (JObj (map (fun kv => (fst kv, JStr (snd kv))) fields
                     ++ registered now exp)%list) }.

End Contract.
Import Contract.

(** ** A table-driven [Jsonwebtoken]

    An implementation of the interface small enough to run inside Rocq:
    it knows the four demo accounts and the two default lifetimes, signs
    only at clock time 0 and only with the default secret, and names each
    token after the account and the lifetime.  It serves to evaluate the
    servers on concrete requests. *)

Module Table.

Definition secret : string := "please_change_this_secret_in_prod".

Definition span (expiresIn : string) : option Z :=
  if expiresIn =? "1h" then Some 3600
  else if expiresIn =? "2h" then Some 7200
  else None.

Definition accounts : list (string * list (string * string)) :=
  [ ("admin1", [("username", "admin1"); ("role", "admin"); ("name", "Admin One")]);
    ("mod1", [("username", "mod1"); ("role", "moderator"); ("name", "Moderator One")]);
    ("alice", [("username", "alice"); ("role", "user"); ("name", "Alice")]);
    ("demo", [("username", "demo"); ("name", "Demo User");
              ("email", "demo@example.com")]) ].

(** token, payload fields, [exp] *)
Definition tokens : list (string * (list (string * string) * Z)) :=
  flat_map (fun a =>
              [ (fst a ++ ".1h", (snd a, 3600));
                (fst a ++ ".2h", (snd a, 7200)) ])
           accounts.

Fixpoint flat (props : list (string * jsval)) : option (list (string * string)) :=
  match props with
  | [] => Some []
  | (k, JStr s) :: rest => option_map (cons (k, s)) (flat rest)
  | _ => None
  end.

Definition fields_eq_dec (a b : list (string * string)) : {a = b} + {a <> b}.
Proof. repeat decide equality. Defined.

Definition sign (now : Z) (payload : jsval) (key expiresIn : string)
  : string + string :=
  if negb (now =? 0)%Z then inl "clock not at 0"
  else if negb (key =? secret) then inl "unknown secret"
  else
    match payload, span expiresIn with
    | JObj props, Some exp =>
        match flat props with
        | Some fields =>
            match find (fun e => if fields_eq_dec (fst (snd e)) fields
                                 then (snd (snd e) =? exp)%Z else false)
                       tokens with
            | Some e => inr (fst e)
            | None => inl "unknown payload"
            end
        | None => inl "unknown payload"
        end
    | _, None => inl "unknown time span"
    | _, _ => inl "unknown payload"
    end.

Definition verify (now : Z) (token key : string) : string + jsval :=
  if negb (key =? secret) then inl "invalid signature"
  else
    match find (fun e => fst e =? token) tokens with
    | Some (_, (fields, exp)) =>
        if (now <? exp)%Z
        then inr (JObj (map (fun kv => (fst kv, JStr (snd kv))) fields
                        ++ registered 0 exp)%list)
        else inl "jwt expired"
    | None => inl "jwt malformed"
    end.

Definition expiry (now : Z) (expiresIn : string) : option Z :=
  option_map (Z.add now) (span expiresIn).

#[export] Instance jwt : Jsonwebtoken :=
  {| jwt_sign := sign; jwt_verify := verify; jwt_expiry := expiry |}.

(** Numbers print as a fixed mark: none of the evaluated requests prints
    one. *)
#[export] Instance runtime : Runtime := {| number_to_string := fun _ => "#" |}.

Definition no_env : process_env :=
  {| env_PORT := None; env_JWT_SECRET := None; env_JWT_EXPIRES_IN := None |}.

Definition bearer (token : string) : request :=
  {| req_authorization := Some ("Bearer " ++ token);
     req_body := JUndefined;
     req_user := JUndefined |}.

Definition credentials (usr pwd : jsval) : request :=
  {| req_authorization := None;
     req_body := JObj [("username", usr); ("password", pwd)];
     req_user := JUndefined |}.

End Table.

(** ** The error replies of [/login], as they reach the client *)

Module Replies.

Definition bad_request (message : string) : handler request :=
  ([], Respond {| res_status := 400; res_body := JObj [("error", JStr message)] |}).

Definition invalid_credentials : handler request :=
  ([], Respond {| res_status := 401;
                  res_body := JObj [("error", JStr "Invalid username or password")] |}).

Definition missing_header : handler request :=
  ([], Respond {| res_status := 401;
                  res_body := JObj [("error", JStr "Missing Authorization header")] |}).

Definition malformed_header : handler request :=
  ([], Respond {| res_status := 401;
                  res_body :=
                    JObj [("error",
                           JStr "Malformed Authorization header. Expected 'Bearer <token>'")]
               |}).

(** Whether the [error] message of a reply spells out the expected
    header format. *)
Definition names_format (r : response) : bool :=
  match get_opt (res_body r) "error" with
  | JStr message =>
      match index 0 "'Bearer <token>'" message with
      | Some _ => true
      | None => false
      end
  | _ => false
  end.

(** The token a reply hands out, if any. *)
Definition token_of {A} (h : handler A) : option string :=
  match sent h with
  | Some r =>
      match get_opt (res_body r) "token" with
      | JStr token => Some token
      | _ => None
      end
  | None => None
  end.

(** The decoded payload with which a middleware passed the request on,
    if it did. *)
Definition passed_with (h : handler request) : option jsval :=
  match snd h with
  | Next req => Some (req_user req)
  | _ => None
  end.

(** The header as [verifyJwt] reads it: [req.get("Authorization") || ""]. *)
Definition header (req : request) : string :=
  match req_authorization req with
  | Some h => h
  | None => ""
  end.

(** The outcome of [jwt.verify] on a token, as [verifyJwt] turns it into
    a reply or into [req.user]. *)
Definition checked {J : Jsonwebtoken} (now : Z) (req : request)
    (secret token : string) : handler request :=
  ([Verify token],
   match jwt_verify now token secret with
   | inl message =>
       Respond {| res_status := 401;
                  res_body := JObj [("error", JStr "Invalid or expired token");
                                    ("details", JStr message)] |}
   | inr decoded => Next (set_user req decoded)
   end).

End Replies.
Import Replies.

(** ** The form as its elements drive it *)

Module Session.

(** The two [<input>] elements; each carries its [name] and shows
    [formData[name]] as its [value]. *)
Inductive input : Type :=
| username_input
| password_input.

Definition input_name (i : input) : string :=
  match i with
  | username_input => "username"
  | password_input => "password"
  end.

(** [value={formData.username}], [value={formData.password}] *)
Definition displayed (i : input) (st : Form.state) : option string :=
  Form.field (input_name i) (Form.formData st).

(** What the user does: type into an input ([onChange={handleChange}]
    with the input's new value) or submit the form
    ([onSubmit={handleSubmit}]).  The component re-renders between two
    events, so each handler sees the state the previous one left. *)
Inductive event : Type :=
| Typed (i : input) (value : string)
| Submitted.

Definition dispatch (st : Form.state) (e : event)
  : Form.state * list Form.effect :=
  match e with
  | Typed i value => (Form.handleChange (input_name i) value st, [])
  | Submitted => Form.handleSubmit st
  end.

Fixpoint run (es : list event) (st : Form.state)
  : Form.state * list Form.effect :=
  match es with
  | [] => (st, [])
  | e :: rest =>
      let (st1, out1) := dispatch st e in
      let (st2, out2) := run rest st1 in
      (st2, (out1 ++ out2)%list)
  end.

(** The value last typed into an input during [es], or [before] when
    nothing was typed into it. *)
Fixpoint last_typed (i : input) (es : list event) (before : string) : string :=
  match es with
  | [] => before
  | Typed j value :: rest =>
      last_typed i rest
        (if input_name j =? input_name i then value else before)
  | Submitted :: rest => last_typed i rest before
  end.

Definition only_typing (es : list event) : Prop :=
  Forall (fun e => e <> Submitted) es.

End Session.

(** ** What the servers log when they start listening *)

Module Startup.

Definition default_secret : string := "please_change_this_secret_in_prod".

(** The callback of [app.listen] in the single-user server: the lines it
    passes to [console.log]. *)
Definition demo_listen `{Runtime} (g : JwtDemo.globals) : list string :=
  [ "JWT demo server running: http://localhost:"
      ++ to_string number_to_string (JwtDemo.PORT g);
    "Demo credentials -> username: "
      ++ JwtDemo.username (JwtDemo.DEMO_USER g)
      ++ ", password: " ++ JwtDemo.password (JwtDemo.DEMO_USER g);
    "JWT secret: "
      ++ (if JwtDemo.JWT_SECRET g =? "please_change_this_secret_in_prod"
          then "(default - change it!)" else "(from env)") ].

(** The warning of the RBAC server, byte for byte as the file has it. *)
Definition rbac_warning : string :=
  "Warning: using default JWT_SECRET â€” change for non-demo use.".

(** The callback of [app.listen] in the RBAC server. *)
Definition rbac_listen `{Runtime} (g : Rbac.globals) : list string :=
  let running :=
    "RBAC demo running on http://localhost:"
      ++ to_string number_to_string (Rbac.PORT g) in
  let account u :=
    "  " ++ Rbac.username u ++ " / " ++ Rbac.password u
      ++ "  (role: " ++ Rbac.role u ++ ")" in
  let warning :=
    if Rbac.JWT_SECRET g =? "please_change_this_secret_in_prod"
    then [rbac_warning] else [] in
  List.app [running; "Demo accounts:"]
           (List.app (map account (Rbac.DEMO_USERS g)) warning).

End Startup.

(** ** Which routes sit behind [verifyJwt] *)

Module Routes.

Definition rbac_protected : list Rbac.route :=
  [Rbac.GET_profile; Rbac.GET_moderator; Rbac.GET_admin;
   Rbac.POST_moderation_action].

Definition demo_protected : list JwtDemo.route :=
  [JwtDemo.GET_protected; JwtDemo.GET_profile].

(** The reply of [verifyJwt] to a token that [jwt.verify] refuses. *)
Definition invalid_token (token message : string) : handler request :=
  ([Verify token],
   Respond {| res_status := 401;
              res_body := JObj [("error", JStr "Invalid or expired token");
                                ("details", JStr message)] |}).

(** A string without the space that [split] cuts at. *)
Definition spaceless (s : string) : Prop :=
  forall c, In c (list_ascii_of_string s) -> c <> " "%char.

(** Whether the decoded payload carries a non-empty role string that
    is one of [allowed]. *)
Definition passes (allowed : list string) (user : jsval) : bool :=
  match get_opt user "role" with
  | JStr r => negb (r =? "") && existsb (fun s => s =? r) allowed
  | _ => false
  end.

(** The 403 of [authorizeRoles]: which of its two messages it carries. *)
Definition access_denied (user : jsval) : handler request :=
  ([], Respond
         {| res_status := 403;
            res_body :=
              JObj [("error",
                     JStr (if truthy (get_opt user "role")
                           then "Access denied (insufficient role)"
                           else "Access denied (no role present)"))] |}).

End Routes.
Import Routes.

(** * Properties *)

(** ** JavaScript values on examples *)

Example split_bearer : split "Bearer abc.def" = ["Bearer"; "abc.def"].
Proof. reflexivity. Qed.

Example split_double_space : split "Bearer  x" = ["Bearer"; ""; "x"].
Proof. reflexivity. Qed.

Example truthy_zero : truthy (JNum 0%float) = false /\ truthy (JNum (-0)%float) = false
                      /\ truthy (JNum 0.5%float) = true.
Proof. repeat split; reflexivity. Qed.

(** ** The form *)

Example form_typing_then_submit :
  Form.handleSubmit
    (Form.handleChange "password" "pw"
       (Form.handleChange "username" "ann" Form.initial))
  = ({| Form.formData := [("username", "ann"); ("password", "pw")];
        Form.error := "" |},
     [Form.PreventDefault;
      Form.ConsoleLog "Username:" "ann";
      Form.ConsoleLog "Password:" "pw";
      Form.Alert "Logged in as: ann"]).
Proof. reflexivity. Qed.

Example form_submit_untouched :
  Form.shown (fst (Form.handleSubmit Form.initial)) = Some Form.warning
  /\ snd (Form.handleSubmit Form.initial) = [Form.PreventDefault].
Proof. split; reflexivity. Qed.

(** C7.  Submitting the form: when the username or the password field is
    the empty string, the only state change is that the error message
    becomes the fixed warning, the fields are untouched and nothing but
    [preventDefault()] runs (no log, no alert); when both are non-empty
    the error message is cleared and the alert announces the entered
    username. *)
Theorem handleSubmit_spec (st : Form.state) :
  (Form.field "username" (Form.formData st) = Some ""
   \/ Form.field "password" (Form.formData st) = Some "" ->
   Form.handleSubmit st
   = ({| Form.formData := Form.formData st; Form.error := Form.warning |},
      [Form.PreventDefault]))
  /\ (forall u p,
        Form.field "username" (Form.formData st) = Some u ->
        Form.field "password" (Form.formData st) = Some p ->
        u <> "" -> p <> "" ->
        Form.handleSubmit st
        = ({| Form.formData := Form.formData st; Form.error := "" |},
           [Form.PreventDefault;
            Form.ConsoleLog "Username:" u;
            Form.ConsoleLog "Password:" p;
            Form.Alert ("Logged in as: " ++ u)])).
Proof.
  unfold Form.handleSubmit. split.
  - intros [H | H]; rewrite H; simpl.
    + reflexivity.
    + now rewrite orb_true_r.
  - intros u p Hu Hp Hnu Hnp. rewrite Hu, Hp. simpl.
    apply String.eqb_neq in Hnu, Hnp. now rewrite Hnu, Hnp.
Qed.

(** ** JavaScript values: basic facts *)

Lemma assoc_absent (k : string) (props : list (string * jsval)) :
  ~ In k (map fst props) -> assoc k props = JUndefined.
Proof.
  induction props as [| [k' v] rest IH]; simpl; intros Hk.
  - reflexivity.
  - destruct (String.eqb_spec k' k) as [-> | _].
    + exfalso. apply Hk. now left.
    + apply IH. intros Hin. apply Hk. now right.
Qed.

Lemma get_opt_absent (v : jsval) (k : string) :
  ~ In k (keys v) -> get_opt v k = JUndefined.
Proof.
  destruct v; simpl; intros Hk; try reflexivity.
  unfold get_opt. simpl. now apply assoc_absent.
Qed.

(** A property with a value other than [undefined] is read off a truthy
    value, without a [TypeError]. *)
Lemma get_opt_defined (v x : jsval) (k : string) :
  get_opt v k = x -> x <> JUndefined -> truthy v = true /\ get v k = Some x.
Proof.
  unfold get_opt. destruct v; simpl; intros <- Hx; try congruence.
  now split.
Qed.

(** Destructuring [req.body || {}] never throws. *)
Lemma member_body (body : jsval) (k : string) :
  member (js_or body (JObj [])) k = next (get_opt body k).
Proof.
  unfold js_or, member, get_opt.
  destruct body as [| | [|] | x | s | items | props]; simpl; try reflexivity.
  - destruct (negb _); reflexivity.
  - destruct (negb (s =? "")); reflexivity.
Qed.

(** ** The role gate of the RBAC server *)

Section RoleGate.
Context {J : Jsonwebtoken} {R : Runtime}.
Variables (g : Rbac.globals) (now : Z).

Lemma authorizeRoles_no_role (allowed : list string) (req : request) :
  get_opt (req_user req) "role" = JUndefined ->
  Rbac.authorizeRoles allowed req
  = json 403 (JObj [("error", JStr "Access denied (no role present)")]).
Proof.
  unfold Rbac.authorizeRoles, Rbac.no_role, member, get_opt.
  destruct (req_user req) as [| | [|] | x | s | items | props];
    simpl; try reflexivity.
  - now destruct (negb _).
  - now destruct (negb (s =? "")).
  - now intros ->.
Qed.

Lemma authorizeRoles_role (allowed : list string) (req : request) (r : string) :
  get_opt (req_user req) "role" = JStr r ->
  r <> "" ->
  Rbac.authorizeRoles allowed req
  = if existsb (fun s => s =? r) allowed then next req
    else json 403 (JObj [("error", JStr "Access denied (insufficient role)")]).
Proof.
  intros Hrole Hr.
  destruct (get_opt_defined _ _ _ Hrole) as [Ht Hg]; [discriminate |].
  unfold Rbac.authorizeRoles, Rbac.no_role, member, includes.
  rewrite Ht, Hg. simpl.
  apply String.eqb_neq in Hr. rewrite Hr. simpl.
  now destruct (existsb _ allowed).
Qed.

Lemma moderation_action_no_role (req : request) :
  get_opt (req_user req) "role" = JUndefined ->
  Rbac.moderation_action req
  = json 403 (JObj [("error", JStr "Not allowed to perform moderation actions")]).
Proof. unfold Rbac.moderation_action. now intros ->. Qed.
End RoleGate.

(** C1.  Behind a verified token, the role decides: "user" is refused
    with 403 on [/moderator] and on [/admin]; "admin" reaches both
    dashboards; "moderator" reaches the moderator dashboard and is
    refused with 403 on [/admin]. *)
Theorem role_decides_access {J : Jsonwebtoken} {R : Runtime}
    (g : Rbac.globals) (now : Z) (req req1 : request) (log : list call) :
  Rbac.verifyJwt g now req = (log, Next req1) ->
  let role := get_opt (req_user req1) "role" in
  let moderator := Rbac.app g now Rbac.GET_moderator req in
  let admin := Rbac.app g now Rbac.GET_admin req in
  let dashboard title :=
    Some {| res_status := 200;
            res_body := JObj [("message", JStr title); ("user", req_user req1)] |} in
  (role = JStr "user" -> status moderator = Some 403 /\ status admin = Some 403)
  /\ (role = JStr "admin" ->
      sent moderator = dashboard "Moderator dashboard"
      /\ sent admin = dashboard "Admin dashboard")
  /\ (role = JStr "moderator" ->
      sent moderator = dashboard "Moderator dashboard"
      /\ status admin = Some 403).
Proof.
  intros Hv. cbv zeta. unfold Rbac.app. rewrite Hv.
  split; [| split]; intros Hrole; simpl;
    rewrite !(fun a => authorizeRoles_role a _ _ Hrole) by discriminate;
    split; reflexivity.
Qed.

(** C9.  A verified token whose payload has no [role] field is refused
    with 403 on [/moderator], [/admin] and [/moderation/action]: the
    request is answered, neither let through nor left to throw. *)
Theorem token_without_role_refused {J : Jsonwebtoken} {R : Runtime}
    (g : Rbac.globals) (now : Z) (req req1 : request) (log : list call) :
  Rbac.verifyJwt g now req = (log, Next req1) ->
  ~ In "role" (keys (req_user req1)) ->
  status (Rbac.app g now Rbac.GET_moderator req) = Some 403
  /\ status (Rbac.app g now Rbac.GET_admin req) = Some 403
  /\ status (Rbac.app g now Rbac.POST_moderation_action req) = Some 403.
Proof.
  intros Hv Hk. apply get_opt_absent in Hk.
  unfold Rbac.app. rewrite Hv. simpl.
  rewrite !(fun a => authorizeRoles_no_role a _ Hk), (moderation_action_no_role _ Hk).
  repeat split.
Qed.

(** ** [POST /login] *)

Lemma str_eq_true (s : string) (v : jsval) : str_eq s v = true <-> v = JStr s.
Proof.
  destruct v; simpl; split; try discriminate.
  - now intros ->%String.eqb_eq.
  - intros [= ->]. apply String.eqb_refl.
Qed.

Lemma find_nothing {A : Type} (f : A -> bool) (l : list A) :
  (forall x, In x l -> f x = false) -> find f l = None.
Proof.
  induction l as [| a l IH]; simpl; intros H.
  - reflexivity.
  - rewrite (H a) by now left. apply IH. intros x Hx. apply H. now right.
Qed.

Section Login.
Context {J : Jsonwebtoken}.
Variables (now : Z) (req : request).

Let usr := get_opt (req_body req) "username".
Let pwd := get_opt (req_body req) "password".

(** The handler of the RBAC server as a function of the two fields
    read from the body. *)
Lemma rbac_login_unfold (g : Rbac.globals) :
  Rbac.login g now req
  = if negb (truthy usr) || negb (truthy pwd) then
      bad_request "username and password required in body"
    else
      match find (fun u => str_eq (Rbac.username u) usr
                           && str_eq (Rbac.password u) pwd)
                 (Rbac.DEMO_USERS g) with
      | None => invalid_credentials
      | Some u =>
          ([Sign (Rbac.login_payload u)],
           match jwt_sign now (Rbac.login_payload u)
                          (Rbac.JWT_SECRET g) (Rbac.JWT_EXPIRES_IN g) with
           | inr token =>
               Respond
                 {| res_status := 200;
                    res_body :=
                      JObj [("token", JStr token);
                            ("expiresIn", JStr (Rbac.JWT_EXPIRES_IN g));
                            ("user", Rbac.login_payload u)] |}
           | inl message => Throw message
           end)
      end.
Proof.
  unfold Rbac.login. rewrite !member_body. simpl. fold usr pwd.
  destruct (negb (truthy usr) || negb (truthy pwd)); [reflexivity |].
  destruct (find _ _) as [u |]; [| reflexivity].
  unfold Rbac.signToken, sign. simpl.
  now destruct (jwt_sign _ _ _ _).
Qed.

Lemma demo_login_unfold (g : JwtDemo.globals) :
  JwtDemo.login g now req
  = if negb (truthy usr) || negb (truthy pwd) then
      bad_request "username and password required"
    else if negb (str_eq (JwtDemo.username (JwtDemo.DEMO_USER g)) usr)
            || negb (str_eq (JwtDemo.password (JwtDemo.DEMO_USER g)) pwd) then
      invalid_credentials
    else
      ([Sign (JwtDemo.login_payload g)],
       match jwt_sign now (JwtDemo.login_payload g)
                      (JwtDemo.JWT_SECRET g) (JwtDemo.JWT_EXPIRES_IN g) with
       | inr token =>
           Respond
             {| res_status := 200;
                res_body := JObj [("token", JStr token);
                                  ("expiresIn", JStr (JwtDemo.JWT_EXPIRES_IN g))] |}
       | inl message => Throw message
       end).
Proof.
  unfold JwtDemo.login. rewrite !member_body. simpl. fold usr pwd.
  destruct (negb (truthy usr) || negb (truthy pwd)); [reflexivity |].
  destruct (negb _ || negb _); [reflexivity |].
  unfold JwtDemo.signToken, sign. simpl.
  now destruct (jwt_sign _ _ _ _).
Qed.

(** [/login] never falls through to the 404 handler. *)
Lemma rbac_login_route {R : Runtime} (g : Rbac.globals) :
  Rbac.app g now Rbac.POST_login req = Rbac.login g now req.
Proof.
  unfold Rbac.app. rewrite rbac_login_unfold.
  destruct (negb _ || negb _); [reflexivity |].
  destruct (find _ _); [| reflexivity].
  simpl. now destruct (jwt_sign _ _ _ _).
Qed.

Lemma demo_login_route (g : JwtDemo.globals) :
  JwtDemo.app g now JwtDemo.POST_login req = JwtDemo.login g now req.
Proof.
  unfold JwtDemo.app. rewrite demo_login_unfold.
  destruct (negb _ || negb _); [reflexivity |].
  destruct (negb _ || negb _); [reflexivity |].
  simpl. now destruct (jwt_sign _ _ _ _).
Qed.

(** Both fields pass the presence test and no record matches: 401. *)
Lemma rbac_login_unlisted (g : Rbac.globals) :
  truthy usr = true -> truthy pwd = true ->
  (forall u, In u (Rbac.DEMO_USERS g) ->
             ~ (usr = JStr (Rbac.username u) /\ pwd = JStr (Rbac.password u))) ->
  Rbac.login g now req = invalid_credentials.
Proof.
  intros Hu Hp Hno. rewrite rbac_login_unfold, Hu, Hp. simpl.
  rewrite find_nothing; [reflexivity |].
  intros u Hin. apply not_true_is_false. intros [H1 H2]%andb_prop.
  apply (Hno u Hin). now split; apply str_eq_true.
Qed.

Lemma demo_login_unlisted (g : JwtDemo.globals) :
  truthy usr = true -> truthy pwd = true ->
  ~ (usr = JStr (JwtDemo.username (JwtDemo.DEMO_USER g))
     /\ pwd = JStr (JwtDemo.password (JwtDemo.DEMO_USER g))) ->
  JwtDemo.login g now req = invalid_credentials.
Proof.
  intros Hu Hp Hno. rewrite demo_login_unfold, Hu, Hp. simpl.
  destruct (str_eq _ usr) eqn:E1; [| reflexivity].
  destruct (str_eq _ pwd) eqn:E2; [| reflexivity].
  exfalso. apply Hno. now split; apply str_eq_true.
Qed.

Lemma rbac_login_blank (g : Rbac.globals) :
  truthy usr = false \/ truthy pwd = false ->
  Rbac.login g now req = bad_request "username and password required in body".
Proof.
  intros H. rewrite rbac_login_unfold.
  destruct H as [-> | ->]; simpl; [| rewrite orb_true_r]; reflexivity.
Qed.

Lemma demo_login_blank (g : JwtDemo.globals) :
  truthy usr = false \/ truthy pwd = false ->
  JwtDemo.login g now req = bad_request "username and password required".
Proof.
  intros H. rewrite demo_login_unfold.
  destruct H as [-> | ->]; simpl; [| rewrite orb_true_r]; reflexivity.
Qed.
End Login.

(** C10.  An empty string in [username] or in [password] is answered
    like a missing field: status 400 with the missing-fields error, in
    both servers, whatever the credential record says, and without any
    call to [jwt.sign].  A request that lacks the field altogether gets
    the very same reply. *)
Theorem empty_field_is_bad_request {J : Jsonwebtoken} {R : Runtime}
    (now : Z) (req : request) :
  get_opt (req_body req) "username" = JStr ""
  \/ get_opt (req_body req) "password" = JStr "" ->
  (forall g, Rbac.app g now Rbac.POST_login req
             = bad_request "username and password required in body")
  /\ (forall g, JwtDemo.app g now JwtDemo.POST_login req
                = bad_request "username and password required")
  /\ (forall absent,
        get_opt (req_body absent) "username" = JUndefined
        \/ get_opt (req_body absent) "password" = JUndefined ->
        (forall g, Rbac.app g now Rbac.POST_login absent
                   = Rbac.app g now Rbac.POST_login req)
        /\ (forall g, JwtDemo.app g now JwtDemo.POST_login absent
                      = JwtDemo.app g now JwtDemo.POST_login req))
  /\ (forall message,
        status (bad_request message) = Some 400
        /\ token_of (bad_request message) = None
        /\ calls (bad_request message) = []).
Proof.
  intros Hempty.
  assert (Hreq : truthy (get_opt (req_body req) "username") = false
                 \/ truthy (get_opt (req_body req) "password") = false).
  { destruct Hempty as [-> | ->]; [left | right]; reflexivity. }
  split; [| split; [| split; [| now repeat split]]].
  - intros g. rewrite rbac_login_route. now apply rbac_login_blank.
  - intros g. rewrite demo_login_route. now apply demo_login_blank.
  - intros absent Habsent.
    assert (Habs : truthy (get_opt (req_body absent) "username") = false
                   \/ truthy (get_opt (req_body absent) "password") = false).
    { destruct Habsent as [-> | ->]; [left | right]; reflexivity. }
    split; intros g.
    + rewrite !rbac_login_route.
      now rewrite (rbac_login_blank now absent g), (rbac_login_blank now req g).
    + rewrite !demo_login_route.
      now rewrite (demo_login_blank now absent g), (demo_login_blank now req g).
Qed.

(** C3, as the code has it.  A pair whose two fields both pass the
    presence test (neither missing nor empty) and that matches no
    credential record is answered 401 "Invalid username or password", and
    [jwt.sign] is not called. *)
Theorem unlisted_pair_unauthorized {J : Jsonwebtoken} {R : Runtime}
    (now : Z) (req : request) :
  let usr := get_opt (req_body req) "username" in
  let pwd := get_opt (req_body req) "password" in
  truthy usr = true ->
  truthy pwd = true ->
  (forall g,
      (forall u, In u (Rbac.DEMO_USERS g) ->
                 ~ (usr = JStr (Rbac.username u) /\ pwd = JStr (Rbac.password u))) ->
      Rbac.app g now Rbac.POST_login req = invalid_credentials)
  /\ (forall g,
        ~ (usr = JStr (JwtDemo.username (JwtDemo.DEMO_USER g))
           /\ pwd = JStr (JwtDemo.password (JwtDemo.DEMO_USER g))) ->
        JwtDemo.app g now JwtDemo.POST_login req = invalid_credentials)
  /\ status invalid_credentials = Some 401
  /\ token_of invalid_credentials = None
  /\ calls invalid_credentials = [].
Proof.
  intros usr pwd Hu Hp. split; [| split; [| now repeat split]]; intros g Hno.
  - rewrite rbac_login_route. now apply rbac_login_unlisted.
  - rewrite demo_login_route. now apply demo_login_unlisted.
Qed.

(** C3 as stated fails: the pair ("", "x") is in no credential record,
    and the RBAC server answers it 400, not 401. *)
Lemma unlisted_pair_with_empty_username :
  let g := Rbac.start Table.no_env in
  (forall u, In u (Rbac.DEMO_USERS g) ->
             ~ (Rbac.username u = "" /\ Rbac.password u = "x"))
  /\ status (Rbac.app (J := Table.jwt) (R := Table.runtime) g 0 Rbac.POST_login
               (Table.credentials (JStr "") (JStr "x"))) = Some 400.
Proof.
  split; [| reflexivity].
  intros u [<- | [<- | [<- | []]]] [H _]; discriminate H.
Qed.

(** C6, as the code has it.  Two failed attempts whose fields all pass
    the presence test of the handler (present and non-empty), one naming
    no account, the other naming an account with a password that is not
    its own, get one and the same reply: status 401 and the same error
    body. *)
Theorem failed_logins_indistinguishable {J : Jsonwebtoken} {R : Runtime}
    (now now' : Z) (unknown_user wrong_password : request) :
  let usrA := get_opt (req_body unknown_user) "username" in
  let pwdA := get_opt (req_body unknown_user) "password" in
  let usrB := get_opt (req_body wrong_password) "username" in
  let pwdB := get_opt (req_body wrong_password) "password" in
  truthy usrA = true -> truthy pwdA = true ->
  truthy usrB = true -> truthy pwdB = true ->
  (forall g,
      (forall u, In u (Rbac.DEMO_USERS g) -> usrA <> JStr (Rbac.username u)) ->
      (exists u, In u (Rbac.DEMO_USERS g) /\ usrB = JStr (Rbac.username u)) ->
      (forall u, In u (Rbac.DEMO_USERS g) ->
                 usrB = JStr (Rbac.username u) -> pwdB <> JStr (Rbac.password u)) ->
      Rbac.app g now Rbac.POST_login unknown_user
      = Rbac.app g now' Rbac.POST_login wrong_password
      /\ status (Rbac.app g now Rbac.POST_login unknown_user) = Some 401)
  /\ (forall g,
        usrA <> JStr (JwtDemo.username (JwtDemo.DEMO_USER g)) ->
        usrB = JStr (JwtDemo.username (JwtDemo.DEMO_USER g)) ->
        pwdB <> JStr (JwtDemo.password (JwtDemo.DEMO_USER g)) ->
        JwtDemo.app g now JwtDemo.POST_login unknown_user
        = JwtDemo.app g now' JwtDemo.POST_login wrong_password
        /\ status (JwtDemo.app g now JwtDemo.POST_login unknown_user) = Some 401).
Proof.
  intros usrA pwdA usrB pwdB HuA HpA HuB HpB. split.
  - intros g HA _ HB. rewrite !rbac_login_route.
    rewrite (rbac_login_unlisted now unknown_user g),
            (rbac_login_unlisted now' wrong_password g); auto.
    + intros u Hin [Hu Hp]. now apply (HB u Hin).
    + intros u Hin [Hu _]. now apply (HA u Hin).
  - intros g HA _ HB. rewrite !demo_login_route.
    rewrite (demo_login_unlisted now unknown_user g),
            (demo_login_unlisted now' wrong_password g); auto.
    + now intros [_ Hp].
    + now intros [Hu _].
Qed.

(** C6 as stated fails: a wrong password that is present but empty is
    answered 400, an unknown username 401. *)
Lemma failed_logins_differ_on_empty_password :
  let g := Rbac.start Table.no_env in
  let post req :=
    status (Rbac.app (J := Table.jwt) (R := Table.runtime) g 0 Rbac.POST_login req) in
  (forall u, In u (Rbac.DEMO_USERS g) -> Rbac.username u <> "nobody")
  /\ (exists u, In u (Rbac.DEMO_USERS g)
                /\ Rbac.username u = "admin1" /\ Rbac.password u <> "")
  /\ post (Table.credentials (JStr "nobody") (JStr "adminpass")) = Some 401
  /\ post (Table.credentials (JStr "admin1") (JStr "")) = Some 400.
Proof.
  cbv zeta. split; [| split; [| split; reflexivity]].
  - intros u [<- | [<- | [<- | []]]]; discriminate.
  - eexists. split; [left; reflexivity |]. split; [reflexivity | discriminate].
Qed.

(** A 200 from [/login] means that a record matched and that [jwt.sign]
    returned a token for its payload. *)
Lemma rbac_login_success {J : Jsonwebtoken} (g : Rbac.globals) (now : Z)
    (req : request) :
  status (Rbac.login g now req) = Some 200 ->
  exists u token,
    In u (Rbac.DEMO_USERS g)
    /\ get_opt (req_body req) "username" = JStr (Rbac.username u)
    /\ get_opt (req_body req) "password" = JStr (Rbac.password u)
    /\ jwt_sign now (Rbac.login_payload u) (Rbac.JWT_SECRET g)
                (Rbac.JWT_EXPIRES_IN g) = inr token
    /\ Rbac.login g now req
       = ([Sign (Rbac.login_payload u)],
          Respond {| res_status := 200;
                     res_body := JObj [("token", JStr token);
                                       ("expiresIn", JStr (Rbac.JWT_EXPIRES_IN g));
                                       ("user", Rbac.login_payload u)] |}).
Proof.
  rewrite rbac_login_unfold.
  destruct (negb _ || negb _); [discriminate |].
  destruct (find _ _) as [u |] eqn:Hfind; [| discriminate].
  destruct (jwt_sign _ _ _ _) as [message | token] eqn:Hsign; [discriminate |].
  intros _. exists u, token.
  apply find_some in Hfind as [Hin [H1 H2]%andb_prop].
  apply str_eq_true in H1, H2. auto.
Qed.

Lemma demo_login_success {J : Jsonwebtoken} (g : JwtDemo.globals) (now : Z)
    (req : request) :
  status (JwtDemo.login g now req) = Some 200 ->
  exists token,
    get_opt (req_body req) "username" = JStr (JwtDemo.username (JwtDemo.DEMO_USER g))
    /\ get_opt (req_body req) "password"
       = JStr (JwtDemo.password (JwtDemo.DEMO_USER g))
    /\ jwt_sign now (JwtDemo.login_payload g) (JwtDemo.JWT_SECRET g)
                (JwtDemo.JWT_EXPIRES_IN g) = inr token
    /\ JwtDemo.login g now req
       = ([Sign (JwtDemo.login_payload g)],
          Respond {| res_status := 200;
                     res_body := JObj [("token", JStr token);
                                       ("expiresIn",
                                        JStr (JwtDemo.JWT_EXPIRES_IN g))] |}).
Proof.
  rewrite demo_login_unfold.
  destruct (negb _ || negb _); [discriminate |].
  destruct (str_eq _ _) eqn:H1; [| discriminate].
  destruct (str_eq _ _) eqn:H2 in |- *; [| discriminate].
  simpl.
  destruct (jwt_sign _ _ _ _) as [message | token] eqn:Hsign; [discriminate |].
  intros _. exists token.
  apply str_eq_true in H1, H2. auto.
Qed.

(** C2.  On a successful login the one payload handed to [jwt.sign]
    holds exactly the allow-listed fields of the matched record
    ([username], [role], [name] in the RBAC server; [username], [name],
    [email] in the single-user server) and no [password] field. *)
Theorem login_payload_allow_list {J : Jsonwebtoken} {R : Runtime}
    (now : Z) (req : request) :
  (forall g,
      status (Rbac.app g now Rbac.POST_login req) = Some 200 ->
      exists u,
        In u (Rbac.DEMO_USERS g)
        /\ get_opt (req_body req) "username" = JStr (Rbac.username u)
        /\ get_opt (req_body req) "password" = JStr (Rbac.password u)
        /\ calls (Rbac.app g now Rbac.POST_login req)
           = [Sign (JObj [("username", JStr (Rbac.username u));
                          ("role", JStr (Rbac.role u));
                          ("name", JStr (Rbac.name u))])]
        /\ keys (Rbac.login_payload u) = ["username"; "role"; "name"]
        /\ ~ In "password" (keys (Rbac.login_payload u)))
  /\ (forall g,
        status (JwtDemo.app g now JwtDemo.POST_login req) = Some 200 ->
        let u := JwtDemo.DEMO_USER g in
        get_opt (req_body req) "username" = JStr (JwtDemo.username u)
        /\ get_opt (req_body req) "password" = JStr (JwtDemo.password u)
        /\ calls (JwtDemo.app g now JwtDemo.POST_login req)
           = [Sign (JObj [("username", JStr (JwtDemo.username u));
                          ("name", JStr (JwtDemo.name u));
                          ("email", JStr (JwtDemo.email u))])]
        /\ keys (JwtDemo.login_payload g) = ["username"; "name"; "email"]
        /\ ~ In "password" (keys (JwtDemo.login_payload g))).
Proof.
  split; intros g.
  - rewrite rbac_login_route. intros Hok.
    destruct (rbac_login_success g now req Hok) as (u & token & Hin & Hu & Hp & _ & ->).
    exists u. repeat split; auto.
    simpl. intuition discriminate.
  - rewrite demo_login_route. intros Hok.
    destruct (demo_login_success g now req Hok) as (token & Hu & Hp & _ & ->).
    repeat split; auto.
    simpl. intuition discriminate.
Qed.

(** C4, as the code has it.  A successful login is answered with the
    token that [jwt.sign] returned and the configured lifetime string as
    [expiresIn]; the RBAC server adds a [user] summary of the matched
    record, the single-user server sends these two fields and nothing
    else. *)
Theorem login_response_body {J : Jsonwebtoken} {R : Runtime}
    (now : Z) (req : request) :
  (forall g,
      status (Rbac.app g now Rbac.POST_login req) = Some 200 ->
      exists u token,
        In u (Rbac.DEMO_USERS g)
        /\ jwt_sign now (Rbac.login_payload u) (Rbac.JWT_SECRET g)
                    (Rbac.JWT_EXPIRES_IN g) = inr token
        /\ sent (Rbac.app g now Rbac.POST_login req)
           = Some {| res_status := 200;
                     res_body :=
                       JObj [("token", JStr token);
                             ("expiresIn", JStr (Rbac.JWT_EXPIRES_IN g));
                             ("user", JObj [("username", JStr (Rbac.username u));
                                            ("role", JStr (Rbac.role u));
                                            ("name", JStr (Rbac.name u))])] |})
  /\ (forall g,
        status (JwtDemo.app g now JwtDemo.POST_login req) = Some 200 ->
        exists token,
          jwt_sign now (JwtDemo.login_payload g) (JwtDemo.JWT_SECRET g)
                   (JwtDemo.JWT_EXPIRES_IN g) = inr token
          /\ sent (JwtDemo.app g now JwtDemo.POST_login req)
             = Some {| res_status := 200;
                       res_body :=
                         JObj [("token", JStr token);
                               ("expiresIn", JStr (JwtDemo.JWT_EXPIRES_IN g))] |}).
Proof.
  split; intros g.
  - rewrite rbac_login_route. intros Hok.
    destruct (rbac_login_success g now req Hok) as (u & token & Hin & _ & _ & Hs & ->).
    now exists u, token.
  - rewrite demo_login_route. intros Hok.
    destruct (demo_login_success g now req Hok) as (token & _ & _ & Hs & ->).
    now exists token.
Qed.

(** C4 as stated fails: the single-user server answers the demo
    credentials with [token] and [expiresIn] only, without a user
    summary. *)
Lemma demo_login_without_user_summary :
  exists r,
    sent (JwtDemo.app (J := Table.jwt) (JwtDemo.start Table.no_env) 0
            JwtDemo.POST_login
            (Table.credentials (JStr "demo") (JStr "secret123"))) = Some r
    /\ res_status r = 200
    /\ keys (res_body r) = ["token"; "expiresIn"]
    /\ get_opt (res_body r) "user" = JUndefined.
Proof. eexists. repeat split. Qed.

(** ** [verifyJwt] *)

Lemma append_empty_r (s : string) : s ++ "" = s.
Proof. induction s as [| c s IH]; simpl; [reflexivity | now rewrite IH]. Qed.

Lemma append_assoc (a b c : string) : (a ++ b) ++ c = a ++ (b ++ c).
Proof. induction a as [| x a IH]; simpl; [reflexivity | now rewrite IH]. Qed.

(** The piece being accumulated only prefixes the first part. *)
Lemma split_acc_prefix (s cur : string) :
  split_acc cur s
  = match split_acc "" s with
    | first :: rest => (cur ++ first) :: rest
    | [] => [cur]
    end.
Proof.
  revert cur. induction s as [| c s IH]; intros cur; simpl.
  - now rewrite append_empty_r.
  - destruct (Ascii.eqb c " ").
    + now rewrite append_empty_r.
    + rewrite (IH (cur ++ String c "")), (IH (String c "")).
      destruct (split_acc "" s); [reflexivity |].
      now rewrite append_assoc.
Qed.

(** A string without a space is one word. *)
Lemma split_one_word (s : string) :
  (forall c, In c (list_ascii_of_string s) -> c <> " "%char) -> split s = [s].
Proof.
  unfold split. induction s as [| c s IH]; simpl; intros Hs.
  - reflexivity.
  - destruct (Ascii.eqb_spec c " ") as [-> | _].
    + exfalso. now apply (Hs " "%char); [left |].
    + rewrite split_acc_prefix, IH; [reflexivity |].
      intros x Hx. apply Hs. now right.
Qed.

Lemma split_bearer_token (token : string) :
  split token = [token] -> split ("Bearer " ++ token) = ["Bearer"; token].
Proof. unfold split. simpl. now intros ->. Qed.

(** The second test of [verifyJwt], once the header is known to be
    non-empty: a wrong part count or a wrong first word. *)
Ltac malformed_branch :=
  let Hne := fresh "Hne" in
  let Hbad := fresh "Hbad" in
  let p := fresh "p" in
  intros Hne%String.eqb_neq Hbad; rewrite Hne;
  destruct Hbad as [Hbad%Nat.eqb_neq | Hbad];
  [ now rewrite Hbad
  | destruct (nth_error _ 0) as [p |]; [| now rewrite orb_true_r];
    destruct (String.eqb_spec p "Bearer") as [-> | _]; [congruence |];
    now rewrite orb_true_r ].

Section VerifyJwt.
Context {J : Jsonwebtoken}.
Variables (now : Z) (req : request).

(** The two copies of [verifyJwt] read the secret and nothing else of
    the module state. *)
Lemma rbac_verifyJwt_secret (g g' : Rbac.globals) :
  Rbac.JWT_SECRET g = Rbac.JWT_SECRET g' ->
  Rbac.verifyJwt g now req = Rbac.verifyJwt g' now req.
Proof. unfold Rbac.verifyJwt. now intros ->. Qed.

Lemma demo_verifyJwt_secret (g g' : JwtDemo.globals) :
  JwtDemo.JWT_SECRET g = JwtDemo.JWT_SECRET g' ->
  JwtDemo.verifyJwt g now req = JwtDemo.verifyJwt g' now req.
Proof. unfold JwtDemo.verifyJwt. now intros ->. Qed.

Lemma rbac_verifyJwt_bearer (g : Rbac.globals) (token : string) :
  split token = [token] ->
  req_authorization req = Some ("Bearer " ++ token) ->
  Rbac.verifyJwt g now req = checked now req (Rbac.JWT_SECRET g) token.
Proof.
  intros Hword Hh. unfold Rbac.verifyJwt. rewrite Hh.
  rewrite (split_bearer_token _ Hword). reflexivity.
Qed.

Lemma demo_verifyJwt_bearer (g : JwtDemo.globals) (token : string) :
  split token = [token] ->
  req_authorization req = Some ("Bearer " ++ token) ->
  JwtDemo.verifyJwt g now req = checked now req (JwtDemo.JWT_SECRET g) token.
Proof.
  intros Hword Hh. unfold JwtDemo.verifyJwt. rewrite Hh.
  rewrite (split_bearer_token _ Hword). reflexivity.
Qed.

Lemma rbac_verifyJwt_missing (g : Rbac.globals) :
  header req = "" -> Rbac.verifyJwt g now req = missing_header.
Proof. unfold Rbac.verifyJwt, header. now intros ->. Qed.

Lemma demo_verifyJwt_missing (g : JwtDemo.globals) :
  header req = "" -> JwtDemo.verifyJwt g now req = missing_header.
Proof. unfold JwtDemo.verifyJwt, header. now intros ->. Qed.

Lemma rbac_verifyJwt_malformed (g : Rbac.globals) :
  header req <> "" ->
  List.length (split (header req)) <> 2%nat
  \/ nth_error (split (header req)) 0 <> Some "Bearer" ->
  Rbac.verifyJwt g now req = malformed_header.
Proof. unfold Rbac.verifyJwt, header. malformed_branch. Qed.

Lemma demo_verifyJwt_malformed (g : JwtDemo.globals) :
  header req <> "" ->
  List.length (split (header req)) <> 2%nat
  \/ nth_error (split (header req)) 0 <> Some "Bearer" ->
  JwtDemo.verifyJwt g now req = malformed_header.
Proof. unfold JwtDemo.verifyJwt, header. malformed_branch. Qed.
End VerifyJwt.

(** C5, as the code has it.  On every protected route of both servers a
    request without an [Authorization] header, or with an empty one, is
    answered 401 "Missing Authorization header"; a request whose
    non-empty header does not split on spaces into exactly two parts of
    which the first is "Bearer" is answered 401 with the message that
    names the expected 'Bearer <token>' format.  In both cases nothing
    that follows [verifyJwt] in the chain runs, whatever it is, and
    [jwt.verify] is not called. *)
Theorem bad_header_unauthorized {J : Jsonwebtoken} {R : Runtime}
    (now : Z) (req : request) :
  let rbac_routes :=
    [Rbac.GET_profile; Rbac.GET_moderator; Rbac.GET_admin;
     Rbac.POST_moderation_action] in
  let demo_routes := [JwtDemo.GET_protected; JwtDemo.GET_profile] in
  let answered reply :=
    (forall g r, In r rbac_routes -> Rbac.app g now r req = reply)
    /\ (forall g r, In r demo_routes -> JwtDemo.app g now r req = reply)
    /\ (forall g rest, (req1 <- Rbac.verifyJwt g now req ;; rest req1) = reply)
    /\ (forall g rest, (req1 <- JwtDemo.verifyJwt g now req ;; rest req1) = reply) in
  (header req = "" -> answered missing_header)
  /\ (header req <> "" ->
      List.length (split (header req)) <> 2%nat
      \/ nth_error (split (header req)) 0 <> Some "Bearer" ->
      answered malformed_header)
  /\ option_map names_format (sent malformed_header) = Some true
  /\ status missing_header = Some 401
  /\ status malformed_header = Some 401.
Proof.
  cbv zeta. split; [| split; [| repeat split]].
  - intros Hmissing.
    pose proof (fun g => rbac_verifyJwt_missing now req g Hmissing) as Hr.
    pose proof (fun g => demo_verifyJwt_missing now req g Hmissing) as Hd.
    repeat split; intros g r; try (now rewrite ?Hr, ?Hd).
    + intros [<- | [<- | [<- | [<- | []]]]]; unfold Rbac.app; now rewrite Hr.
    + intros [<- | [<- | []]]; unfold JwtDemo.app; now rewrite Hd.
  - intros Hne Hbad.
    pose proof (fun g => rbac_verifyJwt_malformed now req g Hne Hbad) as Hr.
    pose proof (fun g => demo_verifyJwt_malformed now req g Hne Hbad) as Hd.
    repeat split; intros g r; try (now rewrite ?Hr, ?Hd).
    + intros [<- | [<- | [<- | [<- | []]]]]; unfold Rbac.app; now rewrite Hr.
    + intros [<- | [<- | []]]; unfold JwtDemo.app; now rewrite Hd.
Qed.

(** C5 as stated fails: without a header the reply is 401, but its
    message is "Missing Authorization header", which does not name the
    expected format. *)
Lemma missing_header_reply_names_no_format :
  exists r,
    sent (Rbac.app (J := Table.jwt) (R := Table.runtime)
            (Rbac.start Table.no_env) 0 Rbac.GET_profile
            {| req_authorization := None;
               req_body := JUndefined;
               req_user := JUndefined |}) = Some r
    /\ res_status r = 401
    /\ res_body r = JObj [("error", JStr "Missing Authorization header")]
    /\ names_format r = false.
Proof. eexists. repeat split. Qed.

(** ** Tokens outlive everything but their expiry *)

Section Lifetime.
Context {J : Jsonwebtoken} {C : JwtContract J}.

Lemma rbac_payload_plain (u : Rbac.user) :
  plain [("username", Rbac.username u); ("role", Rbac.role u);
         ("name", Rbac.name u)].
Proof.
  unfold plain. simpl. repeat split; try (intuition discriminate).
  repeat constructor; simpl; intuition discriminate.
Qed.

Lemma demo_payload_plain (u : JwtDemo.user) :
  plain [("username", JwtDemo.username u); ("name", JwtDemo.name u);
         ("email", JwtDemo.email u)].
Proof.
  unfold plain. simpl. repeat split; try (intuition discriminate).
  repeat constructor; simpl; intuition discriminate.
Qed.

(** A token signed for a plain payload passes [jwt.verify] under the
    same secret at every time before [exp]. *)
Lemma signed_then_checked (t0 t exp : Z) (fields : list (string * string))
    (secret expiresIn token : string) (req : request) :
  plain fields ->
  jwt_sign t0 (string_object fields) secret expiresIn = inr token ->
  jwt_expiry t0 expiresIn = Some exp ->
  (t < exp)%Z ->
  checked t req secret token
  = ([Verify token],
     Next (set_user req
             (JObj (map (fun kv => (fst kv, JStr (snd kv))) fields
                    ++ registered t0 exp)%list))).
Proof.
  intros Hplain Hsign Hexp Ht. unfold checked.
  now rewrite (verify_signed _ _ _ _ _ _ _ Hplain Hsign Hexp Ht).
Qed.
End Lifetime.

(** C8.  A token handed out by [/login] passes [verifyJwt] on every
    later request that presents it before its [exp] time, for any module
    state with the same signing secret (whatever has become of the
    credential records, the configured lifetime or the port) and
    whatever else the request carries.  What [verifyJwt] does is fixed by
    the header, the secret and the clock alone. *)
Theorem issued_token_accepted_until_expiry
    {J : Jsonwebtoken} {C : JwtContract J} {R : Runtime} :
  (forall g t0 login_req token,
      token_of (Rbac.app g t0 Rbac.POST_login login_req) = Some token ->
      exists exp decoded,
        jwt_expiry t0 (Rbac.JWT_EXPIRES_IN g) = Some exp
        /\ forall g' t req,
            Rbac.JWT_SECRET g' = Rbac.JWT_SECRET g ->
            (t < exp)%Z ->
            req_authorization req = Some ("Bearer " ++ token) ->
            Rbac.verifyJwt g' t req = ([Verify token], Next (set_user req decoded)))
  /\ (forall g t0 login_req token,
        token_of (JwtDemo.app g t0 JwtDemo.POST_login login_req) = Some token ->
        exists exp decoded,
          jwt_expiry t0 (JwtDemo.JWT_EXPIRES_IN g) = Some exp
          /\ forall g' t req,
              JwtDemo.JWT_SECRET g' = JwtDemo.JWT_SECRET g ->
              (t < exp)%Z ->
              req_authorization req = Some ("Bearer " ++ token) ->
              JwtDemo.verifyJwt g' t req
              = ([Verify token], Next (set_user req decoded)))
  /\ (forall g g' t req req',
        Rbac.JWT_SECRET g = Rbac.JWT_SECRET g' ->
        req_authorization req = req_authorization req' ->
        calls (Rbac.verifyJwt g t req) = calls (Rbac.verifyJwt g' t req')
        /\ sent (Rbac.verifyJwt g t req) = sent (Rbac.verifyJwt g' t req')
        /\ passed_with (Rbac.verifyJwt g t req)
           = passed_with (Rbac.verifyJwt g' t req'))
  /\ (forall g g' t req req',
        JwtDemo.JWT_SECRET g = JwtDemo.JWT_SECRET g' ->
        req_authorization req = req_authorization req' ->
        calls (JwtDemo.verifyJwt g t req) = calls (JwtDemo.verifyJwt g' t req')
        /\ sent (JwtDemo.verifyJwt g t req) = sent (JwtDemo.verifyJwt g' t req')
        /\ passed_with (JwtDemo.verifyJwt g t req)
           = passed_with (JwtDemo.verifyJwt g' t req')).
Proof.
  split; [| split; [| split]].
  - intros g t0 lreq token. rewrite rbac_login_route, rbac_login_unfold.
    destruct (negb _ || negb _); [discriminate |].
    destruct (find _ _) as [u |]; [| discriminate].
    destruct (jwt_sign _ _ _ _) as [message | token'] eqn:Hsign; [discriminate |].
    intros [= <-].
    destruct (sign_expiry _ _ _ _ _ Hsign) as [exp Hexp].
    exists exp. eexists. split; [exact Hexp |].
    intros g' t req Hsecret Ht Hh.
    rewrite (rbac_verifyJwt_bearer t req g' token' (sign_one_word _ _ _ _ _ Hsign) Hh).
    rewrite Hsecret.
    exact (signed_then_checked t0 t exp _ _ _ _ req
             (rbac_payload_plain u) Hsign Hexp Ht).
  - intros g t0 lreq token. rewrite demo_login_route, demo_login_unfold.
    destruct (negb _ || negb _); [discriminate |].
    destruct (negb _ || negb _); [discriminate |].
    destruct (jwt_sign _ _ _ _) as [message | token'] eqn:Hsign; [discriminate |].
    intros [= <-].
    destruct (sign_expiry _ _ _ _ _ Hsign) as [exp Hexp].
    exists exp. eexists. split; [exact Hexp |].
    intros g' t req Hsecret Ht Hh.
    rewrite (demo_verifyJwt_bearer t req g' token' (sign_one_word _ _ _ _ _ Hsign) Hh).
    rewrite Hsecret.
    exact (signed_then_checked t0 t exp _ _ _ _ req
             (demo_payload_plain (JwtDemo.DEMO_USER g)) Hsign Hexp Ht).
  - intros g g' t req req' Hsecret Hh.
    rewrite (rbac_verifyJwt_secret t req g g' Hsecret).
    unfold Rbac.verifyJwt. rewrite Hh.
    destruct (_ =? ""); [now repeat split |].
    destruct (negb _ || negb _); [now repeat split |].
    simpl. now destruct (jwt_verify _ _ _).
  - intros g g' t req req' Hsecret Hh.
    rewrite (demo_verifyJwt_secret t req g g' Hsecret).
    unfold JwtDemo.verifyJwt. rewrite Hh.
    destruct (_ =? ""); [now repeat split |].
    destruct (negb _ || negb _); [now repeat split |].
    simpl. now destruct (jwt_verify _ _ _).
Qed.

(** ** The table-driven library meets the contract *)

Lemma flat_string_fields (fields : list (string * string)) :
  Table.flat (map (fun kv => (fst kv, JStr (snd kv))) fields) = Some fields.
Proof.
  induction fields as [| [k v] rest IH]; simpl; [reflexivity |].
  now rewrite IH.
Qed.

(** Signing succeeds only with a row of the table. *)
Lemma table_sign_row (now : Z) (payload : jsval) (key expiresIn token : string) :
  Table.sign now payload key expiresIn = inr token ->
  exists fields exp,
    now = 0%Z /\ key = Table.secret
    /\ Table.span expiresIn = Some exp
    /\ (exists props, payload = JObj props /\ Table.flat props = Some fields)
    /\ In (token, (fields, exp)) Table.tokens.
Proof.
  unfold Table.sign.
  destruct (Z.eqb_spec now 0) as [-> | _]; [| discriminate].
  destruct (String.eqb_spec key Table.secret) as [-> | _]; [| discriminate].
  cbn [negb].
  destruct payload as [| | b | x | s | items | props];
    destruct (Table.span expiresIn) as [exp |]; try discriminate.
  destruct (Table.flat props) as [fields |] eqn:Hflat; [| discriminate].
  destruct (find _ _) as [[tok [fields' exp']] |] eqn:Hfind; [| discriminate].
  intros [= <-]. apply find_some in Hfind as [Hin Hrow]. simpl in Hrow.
  destruct (Table.fields_eq_dec fields' fields) as [-> | _]; [| discriminate].
  apply Z.eqb_eq in Hrow as ->.
  exists fields, exp. repeat split; eauto.
Qed.

#[export] Instance table_contract : JwtContract Table.jwt.
Proof.
  split; simpl.
  - intros now payload key expiresIn token Hsign.
    destruct (table_sign_row _ _ _ _ _ Hsign) as (fields & exp & -> & _ & Hspan & _).
    unfold Table.expiry. rewrite Hspan. now eexists.
  - intros now payload key expiresIn token Hsign.
    destruct (table_sign_row _ _ _ _ _ Hsign) as (fields & exp & _ & _ & _ & _ & Hin).
    simpl in Hin.
    repeat (destruct Hin as [[= <- _ _] | Hin]; [reflexivity |]).
    contradiction.
  - intros now fields key expiresIn token exp t _ Hsign Hexp Ht.
    destruct (table_sign_row _ _ _ _ _ Hsign)
      as (fields' & exp' & -> & -> & Hspan & (props & [= <-] & Hflat) & Hin).
    rewrite flat_string_fields in Hflat. injection Hflat as <-.
    unfold Table.expiry in Hexp. rewrite Hspan in Hexp. injection Hexp as <-.
    simpl in Hin.
    repeat (destruct Hin as [[= <- <- <-] | Hin];
            [unfold Table.verify; simpl;
             apply Z.ltb_lt in Ht; simpl in Ht; rewrite Ht; reflexivity |]).
    contradiction.
Qed.

(** ** The theorems at work on concrete requests *)

Lemma handleSubmit_spec_witness :
  Form.handleSubmit Form.initial
  = ({| Form.formData := Form.formData Form.initial; Form.error := Form.warning |},
     [Form.PreventDefault])
  /\ Form.handleSubmit
       (Form.handleChange "password" "pw"
          (Form.handleChange "username" "ann" Form.initial))
     = ({| Form.formData := [("username", "ann"); ("password", "pw")];
           Form.error := "" |},
        [Form.PreventDefault;
         Form.ConsoleLog "Username:" "ann";
         Form.ConsoleLog "Password:" "pw";
         Form.Alert "Logged in as: ann"]).
Proof.
  split.
  - apply (proj1 (handleSubmit_spec Form.initial)). left. reflexivity.
  - apply (proj2 (handleSubmit_spec
                    (Form.handleChange "password" "pw"
                       (Form.handleChange "username" "ann" Form.initial)))
                 "ann" "pw"); [reflexivity | reflexivity | discriminate | discriminate].
Defined.

Lemma role_decides_access_witness :
  let g := Rbac.start Table.no_env in
  let at_ route token :=
    status (Rbac.app (J := Table.jwt) (R := Table.runtime) g 100 route
              (Table.bearer token)) in
  (at_ Rbac.GET_moderator "alice.2h" = Some 403
   /\ at_ Rbac.GET_admin "alice.2h" = Some 403)
  /\ (at_ Rbac.GET_moderator "admin1.2h" = Some 200
      /\ at_ Rbac.GET_admin "admin1.2h" = Some 200)
  /\ (at_ Rbac.GET_moderator "mod1.2h" = Some 200
      /\ at_ Rbac.GET_admin "mod1.2h" = Some 403).
Proof.
  cbv zeta. split; [| split].
  - destruct (role_decides_access (J := Table.jwt) (R := Table.runtime)
                (Rbac.start Table.no_env) 100 (Table.bearer "alice.2h") _ _ eq_refl)
      as [H _].
    exact (H eq_refl).
  - destruct (role_decides_access (J := Table.jwt) (R := Table.runtime)
                (Rbac.start Table.no_env) 100 (Table.bearer "admin1.2h") _ _ eq_refl)
      as [_ [H _]].
    destruct (H eq_refl) as [Hm Ha].
    unfold status. rewrite Hm, Ha. split; reflexivity.
  - destruct (role_decides_access (J := Table.jwt) (R := Table.runtime)
                (Rbac.start Table.no_env) 100 (Table.bearer "mod1.2h") _ _ eq_refl)
      as [_ [_ H]].
    destruct (H eq_refl) as [Hm Ha].
    unfold status at 1. rewrite Hm. split; [reflexivity | exact Ha].
Defined.

Lemma token_without_role_refused_witness :
  let g := Rbac.start Table.no_env in
  let at_ route :=
    status (Rbac.app (J := Table.jwt) (R := Table.runtime) g 100 route
              (Table.bearer "demo.1h")) in
  at_ Rbac.GET_moderator = Some 403
  /\ at_ Rbac.GET_admin = Some 403
  /\ at_ Rbac.POST_moderation_action = Some 403.
Proof.
  cbv zeta.
  apply (token_without_role_refused (J := Table.jwt) (R := Table.runtime)
           (Rbac.start Table.no_env) 100 (Table.bearer "demo.1h") _ _ eq_refl).
  simpl. intuition discriminate.
Defined.

Lemma empty_field_is_bad_request_witness :
  let req := Table.credentials (JStr "admin1") (JStr "") in
  get_opt (req_body req) "password" = JStr ""
  /\ Rbac.app (J := Table.jwt) (R := Table.runtime)
       (Rbac.start Table.no_env) 0 Rbac.POST_login req
     = bad_request "username and password required in body"
  /\ JwtDemo.app (J := Table.jwt) (JwtDemo.start Table.no_env) 0
       JwtDemo.POST_login req
     = bad_request "username and password required".
Proof.
  cbv zeta. split; [reflexivity |].
  destruct (empty_field_is_bad_request (J := Table.jwt) (R := Table.runtime) 0
              (Table.credentials (JStr "admin1") (JStr ""))
              (or_intror eq_refl)) as (Hr & Hd & _).
  split; [apply Hr | apply Hd].
Defined.

Lemma unlisted_pair_unauthorized_witness :
  let req := Table.credentials (JStr "admin1") (JStr "alicepw") in
  Rbac.app (J := Table.jwt) (R := Table.runtime)
    (Rbac.start Table.no_env) 0 Rbac.POST_login req = invalid_credentials
  /\ JwtDemo.app (J := Table.jwt) (JwtDemo.start Table.no_env) 0
       JwtDemo.POST_login req = invalid_credentials.
Proof.
  cbv zeta.
  destruct (unlisted_pair_unauthorized (J := Table.jwt) (R := Table.runtime) 0
              (Table.credentials (JStr "admin1") (JStr "alicepw"))
              eq_refl eq_refl) as (Hr & Hd & _).
  split.
  - apply Hr. simpl.
    intros u [<- | [<- | [<- | []]]] [H1 H2]; discriminate.
  - apply Hd. simpl. intros [H1 H2]. discriminate.
Defined.

Lemma failed_logins_indistinguishable_witness :
  let unknown_user := Table.credentials (JStr "nobody") (JStr "adminpass") in
  (Rbac.app (J := Table.jwt) (R := Table.runtime)
     (Rbac.start Table.no_env) 0 Rbac.POST_login unknown_user
   = Rbac.app (J := Table.jwt) (R := Table.runtime)
       (Rbac.start Table.no_env) 5 Rbac.POST_login
       (Table.credentials (JStr "admin1") (JStr "modpass")))
  /\ (JwtDemo.app (J := Table.jwt) (JwtDemo.start Table.no_env) 0
        JwtDemo.POST_login unknown_user
      = JwtDemo.app (J := Table.jwt) (JwtDemo.start Table.no_env) 5
          JwtDemo.POST_login
          (Table.credentials (JStr "demo") (JStr "secret124"))).
Proof.
  cbv zeta. split.
  - destruct (failed_logins_indistinguishable
                (J := Table.jwt) (R := Table.runtime) 0 5
                (Table.credentials (JStr "nobody") (JStr "adminpass"))
                (Table.credentials (JStr "admin1") (JStr "modpass"))
                eq_refl eq_refl eq_refl eq_refl) as [Hr _].
    apply (Hr (Rbac.start Table.no_env)); simpl.
    + intros u [<- | [<- | [<- | []]]]; discriminate.
    + eexists. split; [left; reflexivity | reflexivity].
    + intros u [<- | [<- | [<- | []]]]; discriminate.
  - destruct (failed_logins_indistinguishable
                (J := Table.jwt) (R := Table.runtime) 0 5
                (Table.credentials (JStr "nobody") (JStr "adminpass"))
                (Table.credentials (JStr "demo") (JStr "secret124"))
                eq_refl eq_refl eq_refl eq_refl) as [_ Hd].
    apply (Hd (JwtDemo.start Table.no_env)); simpl;
      [discriminate | reflexivity | discriminate].
Defined.

Lemma login_payload_allow_list_witness :
  (exists u,
      In u (Rbac.DEMO_USERS (Rbac.start Table.no_env))
      /\ calls (Rbac.app (J := Table.jwt) (R := Table.runtime)
                  (Rbac.start Table.no_env) 0 Rbac.POST_login
                  (Table.credentials (JStr "mod1") (JStr "modpass")))
         = [Sign (Rbac.login_payload u)])
  /\ calls (JwtDemo.app (J := Table.jwt) (JwtDemo.start Table.no_env) 0
              JwtDemo.POST_login
              (Table.credentials (JStr "demo") (JStr "secret123")))
     = [Sign (JwtDemo.login_payload (JwtDemo.start Table.no_env))].
Proof.
  split.
  - destruct (proj1 (login_payload_allow_list
                       (J := Table.jwt) (R := Table.runtime) 0
                       (Table.credentials (JStr "mod1") (JStr "modpass")))
                    (Rbac.start Table.no_env) eq_refl)
      as (u & Hin & _ & _ & Hcalls & _).
    exists u. split; [exact Hin | exact Hcalls].
  - destruct (proj2 (login_payload_allow_list
                       (J := Table.jwt) (R := Table.runtime) 0
                       (Table.credentials (JStr "demo") (JStr "secret123")))
                    (JwtDemo.start Table.no_env) eq_refl)
      as (_ & _ & Hcalls & _).
    exact Hcalls.
Defined.

Lemma login_response_body_witness :
  (exists u token,
      sent (Rbac.app (J := Table.jwt) (R := Table.runtime)
              (Rbac.start Table.no_env) 0 Rbac.POST_login
              (Table.credentials (JStr "alice") (JStr "alicepw")))
      = Some {| res_status := 200;
                res_body := JObj [("token", JStr token);
                                  ("expiresIn", JStr "2h");
                                  ("user", Rbac.login_payload u)] |})
  /\ (exists token,
        sent (JwtDemo.app (J := Table.jwt) (JwtDemo.start Table.no_env) 0
                JwtDemo.POST_login
                (Table.credentials (JStr "demo") (JStr "secret123")))
        = Some {| res_status := 200;
                  res_body := JObj [("token", JStr token);
                                    ("expiresIn", JStr "1h")] |}).
Proof.
  split.
  - destruct (proj1 (login_response_body
                       (J := Table.jwt) (R := Table.runtime) 0
                       (Table.credentials (JStr "alice") (JStr "alicepw")))
                    (Rbac.start Table.no_env) eq_refl)
      as (u & token & _ & _ & Hsent).
    exists u, token. exact Hsent.
  - destruct (proj2 (login_response_body
                       (J := Table.jwt) (R := Table.runtime) 0
                       (Table.credentials (JStr "demo") (JStr "secret123")))
                    (JwtDemo.start Table.no_env) eq_refl)
      as (token & _ & Hsent).
    exists token. exact Hsent.
Defined.

Lemma bad_header_unauthorized_witness :
  let no_header :=
    {| req_authorization := None; req_body := JUndefined; req_user := JUndefined |} in
  let basic :=
    {| req_authorization := Some "Basic dXNlcjpwdw==";
       req_body := JUndefined; req_user := JUndefined |} in
  let three_parts :=
    {| req_authorization := Some "Bearer abc def";
       req_body := JUndefined; req_user := JUndefined |} in
  Rbac.app (J := Table.jwt) (R := Table.runtime)
    (Rbac.start Table.no_env) 0 Rbac.GET_admin no_header = missing_header
  /\ JwtDemo.app (J := Table.jwt) (JwtDemo.start Table.no_env) 0
       JwtDemo.GET_profile basic = malformed_header
  /\ Rbac.app (J := Table.jwt) (R := Table.runtime)
       (Rbac.start Table.no_env) 0 Rbac.POST_moderation_action three_parts
     = malformed_header.
Proof.
  cbv zeta. split; [| split].
  - destruct (bad_header_unauthorized (J := Table.jwt) (R := Table.runtime) 0
                {| req_authorization := None; req_body := JUndefined;
                   req_user := JUndefined |}) as [H _].
    destruct (H eq_refl) as [Hr _]. apply Hr. simpl. auto.
  - destruct (bad_header_unauthorized (J := Table.jwt) (R := Table.runtime) 0
                {| req_authorization := Some "Basic dXNlcjpwdw==";
                   req_body := JUndefined; req_user := JUndefined |}) as [_ [H _]].
    destruct H as [_ [Hd _]]; [discriminate | right; discriminate |].
    apply Hd. simpl. auto.
  - destruct (bad_header_unauthorized (J := Table.jwt) (R := Table.runtime) 0
                {| req_authorization := Some "Bearer abc def";
                   req_body := JUndefined; req_user := JUndefined |}) as [_ [H _]].
    destruct H as [Hr _]; [discriminate | left; discriminate |].
    apply Hr. simpl. auto.
Defined.

Lemma issued_token_accepted_until_expiry_witness :
  (exists exp decoded,
      jwt_expiry (Jsonwebtoken := Table.jwt) 0 "2h" = Some exp
      /\ Rbac.verifyJwt (J := Table.jwt)
           {| Rbac.PORT := JStr "8080";
              Rbac.JWT_SECRET := Table.secret;
              Rbac.JWT_EXPIRES_IN := "1h";
              Rbac.DEMO_USERS := [] |}
           (exp - 1) (Table.bearer "admin1.2h")
         = ([Verify "admin1.2h"],
            Next (set_user (Table.bearer "admin1.2h") decoded)))
  /\ (exists exp decoded,
        jwt_expiry (Jsonwebtoken := Table.jwt) 0 "1h" = Some exp
        /\ JwtDemo.verifyJwt (J := Table.jwt)
             {| JwtDemo.PORT := JNum 3000%float;
                JwtDemo.JWT_SECRET := Table.secret;
                JwtDemo.JWT_EXPIRES_IN := "1h";
                JwtDemo.DEMO_USER :=
                  {| JwtDemo.username := "demo"; JwtDemo.password := "changed";
                     JwtDemo.name := "Demo User";
                     JwtDemo.email := "demo@example.com" |} |}
             (exp - 1) (Table.bearer "demo.1h")
           = ([Verify "demo.1h"],
              Next (set_user (Table.bearer "demo.1h") decoded))).
Proof.
  split.
  2: {
    destruct (proj1 (proj2 (issued_token_accepted_until_expiry
                              (J := Table.jwt) (C := table_contract)
                              (R := Table.runtime)))
                    (JwtDemo.start Table.no_env) 0
                    (Table.credentials (JStr "demo") (JStr "secret123"))
                    "demo.1h" eq_refl)
      as (exp & decoded & Hexp & Haccept).
    exists exp, decoded. split; [exact Hexp |].
    apply Haccept; [reflexivity | lia | reflexivity]. }
  destruct (proj1 (issued_token_accepted_until_expiry
                     (J := Table.jwt) (C := table_contract) (R := Table.runtime))
                  (Rbac.start Table.no_env) 0
                  (Table.credentials (JStr "admin1") (JStr "adminpass"))
                  "admin1.2h" eq_refl)
    as (exp & decoded & Hexp & Haccept).
  exists exp, decoded. split; [exact Hexp |].
  apply Haccept; [reflexivity | lia | reflexivity].
Defined.

(** * Further properties *)

(** ** [split] and its inverse *)

Lemma split_acc_not_nil (s cur : string) : split_acc cur s <> [].
Proof.
  revert cur. induction s as [| c s IH]; intros cur; simpl.
  - discriminate.
  - destruct (Ascii.eqb c " "); [discriminate | apply IH].
Qed.

(** Joining the parts with a space gives the string back. *)
Lemma concat_split_acc (s cur : string) :
  String.concat " " (split_acc cur s) = cur ++ s.
Proof.
  revert cur. induction s as [| c s IH]; intros cur; simpl.
  - now rewrite append_empty_r.
  - destruct (Ascii.eqb_spec c " ") as [-> | _].
    + pose proof (split_acc_not_nil s "") as Hne. specialize (IH "").
      destruct (split_acc "" s) as [| p rest]; [contradiction |].
      change (concat " " (cur :: p :: rest))
        with (cur ++ " " ++ concat " " (p :: rest)).
      now rewrite IH.
    + rewrite IH. now rewrite append_assoc.
Qed.

Lemma list_ascii_of_string_app (a b : string) :
  list_ascii_of_string (a ++ b)
  = (list_ascii_of_string a ++ list_ascii_of_string b)%list.
Proof. induction a as [| c a IH]; simpl; [reflexivity | now rewrite IH]. Qed.

Lemma split_acc_spaceless (s cur : string) :
  spaceless cur -> Forall spaceless (split_acc cur s).
Proof.
  revert cur. induction s as [| c s IH]; intros cur Hcur; simpl.
  - now constructor.
  - destruct (Ascii.eqb_spec c " ") as [-> | Hc].
    + constructor; [exact Hcur |]. apply IH. intros x [].
    + apply IH. intros x. rewrite list_ascii_of_string_app. simpl.
      intros [Hx | [<- | []]]%in_app_or; [now apply Hcur | exact Hc].
Qed.

(** A header of two parts is the first part, one space, the second. *)
Lemma split_two (s a b : string) :
  split s = [a; b] -> s = a ++ " " ++ b /\ spaceless a /\ spaceless b.
Proof.
  intros Hs.
  pose proof (concat_split_acc s "") as Hjoin.
  assert (Hfree : Forall spaceless (split s))
    by (apply split_acc_spaceless; intros x []).
  unfold split in *. rewrite Hs in Hjoin, Hfree. simpl in Hjoin.
  inversion Hfree as [| ? ? Ha Hrest]; subst.
  inversion Hrest as [| ? ? Hb _]; subst.
  now repeat split.
Qed.

(** ** [verifyJwt], case by case *)

(** The three ways through either copy of [verifyJwt]. *)
Ltac verifyJwt_cases h :=
  let E := fresh "E" in
  destruct (String.eqb_spec h "") as [E | E];
  [ left; split; [exact E | reflexivity]
  | right;
    destruct (split h) as [| p0 [| p1 [| p2 rest]]] eqn:Hparts; simpl;
    try (left; split; [exact E | split; [left; discriminate | reflexivity]]);
    destruct (String.eqb_spec p0 "Bearer") as [-> | Hp0]; simpl;
    [ right; exists p1; split; reflexivity
    | left; split; [exact E | split; [right; congruence | reflexivity]] ] ].

Section VerifyJwtCases.
Context {J : Jsonwebtoken}.
Variables (now : Z) (req : request).

Lemma rbac_verifyJwt_cases (g : Rbac.globals) :
  (header req = "" /\ Rbac.verifyJwt g now req = missing_header)
  \/ (header req <> ""
      /\ (List.length (split (header req)) <> 2%nat
          \/ nth_error (split (header req)) 0 <> Some "Bearer")
      /\ Rbac.verifyJwt g now req = malformed_header)
  \/ (exists token,
        split (header req) = ["Bearer"; token]
        /\ Rbac.verifyJwt g now req = checked now req (Rbac.JWT_SECRET g) token).
Proof.
  unfold Rbac.verifyJwt, checked. fold (header req).
  verifyJwt_cases (header req).
Qed.

Lemma demo_verifyJwt_cases (g : JwtDemo.globals) :
  (header req = "" /\ JwtDemo.verifyJwt g now req = missing_header)
  \/ (header req <> ""
      /\ (List.length (split (header req)) <> 2%nat
          \/ nth_error (split (header req)) 0 <> Some "Bearer")
      /\ JwtDemo.verifyJwt g now req = malformed_header)
  \/ (exists token,
        split (header req) = ["Bearer"; token]
        /\ JwtDemo.verifyJwt g now req
           = checked now req (JwtDemo.JWT_SECRET g) token).
Proof.
  unfold JwtDemo.verifyJwt, checked. fold (header req).
  verifyJwt_cases (header req).
Qed.

Lemma rbac_verifyJwt_two_parts (g : Rbac.globals) (token : string) :
  split (header req) = ["Bearer"; token] ->
  Rbac.verifyJwt g now req = checked now req (Rbac.JWT_SECRET g) token.
Proof.
  intros Hparts.
  destruct (rbac_verifyJwt_cases g)
    as [[E _] | [(_ & [Hbad | Hbad] & _) | (token' & Hparts' & ->)]].
  - rewrite E in Hparts. discriminate.
  - now rewrite Hparts in Hbad.
  - now rewrite Hparts in Hbad.
  - rewrite Hparts in Hparts'. now injection Hparts' as <-.
Qed.

Lemma demo_verifyJwt_two_parts (g : JwtDemo.globals) (token : string) :
  split (header req) = ["Bearer"; token] ->
  JwtDemo.verifyJwt g now req = checked now req (JwtDemo.JWT_SECRET g) token.
Proof.
  intros Hparts.
  destruct (demo_verifyJwt_cases g)
    as [[E _] | [(_ & [Hbad | Hbad] & _) | (token' & Hparts' & ->)]].
  - rewrite E in Hparts. discriminate.
  - now rewrite Hparts in Hbad.
  - now rewrite Hparts in Hbad.
  - rewrite Hparts in Hparts'. now injection Hparts' as <-.
Qed.
End VerifyJwtCases.

(** ** The role gate, in general *)

Lemma includes_string (allowed : list string) (v : jsval) :
  includes allowed v
  = match v with
    | JStr r => existsb (fun s => s =? r) allowed
    | _ => false
    end.
Proof.
  unfold includes.
  induction allowed as [| a allowed IH]; simpl.
  - now destruct v.
  - rewrite IH. now destruct v.
Qed.

Lemma existsb_eqb_In (allowed : list string) (r : string) :
  existsb (fun s => s =? r) allowed = true <-> In r allowed.
Proof.
  rewrite existsb_exists. split.
  - now intros (s & Hin & ->%String.eqb_eq).
  - intros Hin. exists r. split; [exact Hin | apply String.eqb_refl].
Qed.

Lemma passes_spec (allowed : list string) (user : jsval) :
  passes allowed user = true
  <-> exists r, get_opt user "role" = JStr r /\ r <> "" /\ In r allowed.
Proof.
  unfold passes. split.
  - destruct (get_opt user "role") as [| | | | r | |]; try discriminate.
    intros [Hr Hin]%andb_prop. exists r.
    apply negb_true_iff, String.eqb_neq in Hr. apply existsb_eqb_In in Hin.
    now repeat split.
  - intros (r & -> & Hr & Hin).
    apply String.eqb_neq in Hr. rewrite Hr. simpl. now apply existsb_eqb_In.
Qed.

(** [authorizeRoles] as one test on the decoded payload. *)
Lemma authorizeRoles_passes (allowed : list string) (req : request) :
  Rbac.authorizeRoles allowed req
  = if passes allowed (req_user req) then next req
    else access_denied (req_user req).
Proof.
  unfold Rbac.authorizeRoles, Rbac.no_role, member, passes, access_denied, get_opt.
  destruct (req_user req) as [| | [|] | x | s | items | props];
    simpl; try reflexivity.
  - now destruct (negb _).
  - now destruct (negb (s =? "")).
  - rewrite includes_string.
    destruct (assoc "role" props) as [| | [|] | x | r | items | props'];
      simpl; try reflexivity.
    + now destruct (orb _ _).
    + destruct (r =? ""); simpl; [reflexivity |].
      now destruct (existsb _ allowed).
Qed.

Lemma moderation_action_status {R : Runtime} (req : request) :
  status (Rbac.moderation_action req)
  = Some (if passes ["moderator"; "admin"] (req_user req) then 200 else 403)%Z
  /\ calls (Rbac.moderation_action req) = [].
Proof.
  unfold Rbac.moderation_action, passes, member, get_opt.
  rewrite includes_string.
  destruct (req_user req) as [| | [|] | x | s | items | props];
    cbn -[String.eqb]; try (split; reflexivity).
  destruct (assoc "role" props) as [| | [|] | x | r | items | props'];
    cbn -[String.eqb]; try (split; reflexivity).
  destruct (String.eqb_spec "moderator" r) as [<- | _]; [split; reflexivity |].
  destruct (String.eqb_spec "admin" r) as [<- | _]; [split; reflexivity |].
  cbn -[String.eqb]. rewrite andb_false_r. split; reflexivity.
Qed.

(** The three role-gated routes behind a request that [verifyJwt] let
    through. *)
Lemma gated_routes_status {J : Jsonwebtoken} {R : Runtime}
    (g : Rbac.globals) (now : Z) (req req1 : request) (log : list call) :
  Rbac.verifyJwt g now req = (log, Next req1) ->
  status (Rbac.app g now Rbac.GET_moderator req)
  = Some (if passes ["moderator"; "admin"] (req_user req1) then 200 else 403)%Z
  /\ status (Rbac.app g now Rbac.GET_admin req)
     = Some (if passes ["admin"] (req_user req1) then 200 else 403)%Z
  /\ status (Rbac.app g now Rbac.POST_moderation_action req)
     = Some (if passes ["moderator"; "admin"] (req_user req1) then 200 else 403)%Z.
Proof.
  intros Hv. unfold Rbac.app. rewrite Hv. simpl.
  rewrite !authorizeRoles_passes.
  pose proof (moderation_action_status req1) as [Hm _].
  repeat split.
  - clear Hm. destruct (passes _ _); reflexivity.
  - clear Hm. destruct (passes _ _); reflexivity.
  - unfold status, sent in *. simpl.
    destruct (Rbac.moderation_action req1) as [l [a | r | m]]; simpl in *;
      try discriminate Hm; exact Hm.
Qed.

(** X5.  [authorizeRoles(...allowed)] lets a request through, unchanged,
    exactly when the decoded payload has a [role] that is a non-empty
    string listed in [allowed]; in every other case it answers 403.  It
    never throws and never calls the token library. *)
Theorem authorizeRoles_gate (allowed : list string) (req : request) :
  (Rbac.authorizeRoles allowed req = next req
   <-> exists r,
       get_opt (req_user req) "role" = JStr r /\ r <> "" /\ In r allowed)
  /\ (Rbac.authorizeRoles allowed req = next req
      \/ status (Rbac.authorizeRoles allowed req) = Some 403)
  /\ calls (Rbac.authorizeRoles allowed req) = [].
Proof.
  rewrite authorizeRoles_passes, <- passes_spec.
  destruct (passes allowed (req_user req)); repeat split; auto; discriminate.
Qed.

(** ** Authentication on the protected routes *)

Lemma bind_reply {A B} (l : list call) (r : response) (k : A -> handler B) :
  (x <- (l, Respond r) ;; k x) = (l, Respond r).
Proof. reflexivity. Qed.

Lemma bind_passed {A B} (l : list call) (a : A) (k : A -> handler B) :
  status (x <- (l, Next a) ;; k x) = status (k a)
  /\ calls (x <- (l, Next a) ;; k x) = (l ++ calls (k a))%list.
Proof. unfold bind, status, sent, calls. now destruct (k a). Qed.

Section Outcome.
Context {J : Jsonwebtoken}.
Variables (now : Z) (req : request).

(** Either copy of [verifyJwt] answers 401 with an error message, or
    hands the request on with the payload that [jwt.verify] decoded. *)
Lemma rbac_verifyJwt_outcome (g : Rbac.globals) :
  (exists l resp message,
      Rbac.verifyJwt g now req = (l, Respond resp)
      /\ res_status resp = 401%Z
      /\ get_opt (res_body resp) "error" = JStr message)
  \/ (exists token decoded,
        split (header req) = ["Bearer"; token]
        /\ jwt_verify now token (Rbac.JWT_SECRET g) = inr decoded
        /\ Rbac.verifyJwt g now req = ([Verify token], Next (set_user req decoded))).
Proof.
  destruct (rbac_verifyJwt_cases now req g)
    as [[_ ->] | [(_ & _ & ->) | (token & Hparts & ->)]].
  - left. now repeat eexists.
  - left. now repeat eexists.
  - unfold checked.
    destruct (jwt_verify now token (Rbac.JWT_SECRET g)) as [message | decoded] eqn:Hv.
    + left. now repeat eexists.
    + right. now exists token, decoded.
Qed.

Lemma demo_verifyJwt_outcome (g : JwtDemo.globals) :
  (exists l resp message,
      JwtDemo.verifyJwt g now req = (l, Respond resp)
      /\ res_status resp = 401%Z
      /\ get_opt (res_body resp) "error" = JStr message)
  \/ (exists token decoded,
        split (header req) = ["Bearer"; token]
        /\ jwt_verify now token (JwtDemo.JWT_SECRET g) = inr decoded
        /\ JwtDemo.verifyJwt g now req
           = ([Verify token], Next (set_user req decoded))).
Proof.
  destruct (demo_verifyJwt_cases now req g)
    as [[_ ->] | [(_ & _ & ->) | (token & Hparts & ->)]].
  - left. now repeat eexists.
  - left. now repeat eexists.
  - unfold checked.
    destruct (jwt_verify now token (JwtDemo.JWT_SECRET g))
      as [message | decoded] eqn:Hv.
    + left. now repeat eexists.
    + right. now exists token, decoded.
Qed.

(** A protected route whose [verifyJwt] answered sends that answer. *)
Lemma rbac_protected_reply {R : Runtime} (g : Rbac.globals) (r : Rbac.route)
    (l : list call) (resp : response) :
  In r rbac_protected ->
  Rbac.verifyJwt g now req = (l, Respond resp) ->
  Rbac.app g now r req = (l, Respond resp).
Proof.
  intros [<- | [<- | [<- | [<- | []]]]] Hv; unfold Rbac.app; now rewrite Hv.
Qed.

Lemma demo_protected_reply (g : JwtDemo.globals) (r : JwtDemo.route)
    (l : list call) (resp : response) :
  In r demo_protected ->
  JwtDemo.verifyJwt g now req = (l, Respond resp) ->
  JwtDemo.app g now r req = (l, Respond resp).
Proof.
  intros [<- | [<- | []]] Hv; unfold JwtDemo.app; now rewrite Hv.
Qed.

(** Nothing behind [verifyJwt] calls the token library. *)
Lemma rbac_protected_calls {R : Runtime} (g : Rbac.globals) (r : Rbac.route)
    (l : list call) (req1 : request) :
  In r rbac_protected ->
  Rbac.verifyJwt g now req = (l, Next req1) ->
  calls (Rbac.app g now r req) = l.
Proof.
  intros [<- | [<- | [<- | [<- | []]]]] Hv; unfold Rbac.app; rewrite Hv;
    rewrite (proj2 (bind_passed _ _ _)).
  - simpl. apply app_nil_r.
  - rewrite authorizeRoles_passes.
    destruct (passes _ _); simpl; apply app_nil_r.
  - rewrite authorizeRoles_passes.
    destruct (passes _ _); simpl; apply app_nil_r.
  - pose proof (moderation_action_status req1) as [_ Hc].
    destruct (Rbac.moderation_action req1) as [l' [a | resp | m]];
      simpl in *; subst l'; apply app_nil_r.
Qed.

Lemma demo_protected_calls (g : JwtDemo.globals) (r : JwtDemo.route)
    (l : list call) (req1 : request) :
  In r demo_protected ->
  JwtDemo.verifyJwt g now req = (l, Next req1) ->
  calls (JwtDemo.app g now r req) = l.
Proof.
  intros [<- | [<- | []]] Hv; unfold JwtDemo.app; rewrite Hv;
    rewrite (proj2 (bind_passed _ _ _)).
  - simpl. apply app_nil_r.
  - unfold JwtDemo.profile, member.
    destruct (req_user req1); simpl; apply app_nil_r.
Qed.
End Outcome.

(** X1.  A header of the right shape whose token [jwt.verify] refuses
    (bad signature, expired, malformed, whatever the reason) is answered
    401 "Invalid or expired token" on every protected route of both
    servers, with the library's message as [details]; the route's handler
    is not run. *)
Theorem rejected_token_unauthorized {J : Jsonwebtoken} {R : Runtime}
    (now : Z) (req : request) (token message : string) :
  split (header req) = ["Bearer"; token] ->
  (forall g r,
      jwt_verify now token (Rbac.JWT_SECRET g) = inl message ->
      In r rbac_protected ->
      Rbac.app g now r req = invalid_token token message)
  /\ (forall g r,
        jwt_verify now token (JwtDemo.JWT_SECRET g) = inl message ->
        In r demo_protected ->
        JwtDemo.app g now r req = invalid_token token message).
Proof.
  intros Hparts. split; intros g r Hv Hr.
  - apply rbac_protected_reply; [exact Hr |].
    rewrite (rbac_verifyJwt_two_parts now req g token Hparts).
    unfold checked. now rewrite Hv.
  - apply demo_protected_reply; [exact Hr |].
    rewrite (demo_verifyJwt_two_parts now req g token Hparts).
    unfold checked. now rewrite Hv.
Qed.


(** X3.  No protected route of either server answers 200 unless the
    [Authorization] header is "Bearer " followed by a token that
    [jwt.verify] accepted under the server's secret at that time; that
    verification is the only call the request makes into the library. *)
Theorem no_access_without_verified_token {J : Jsonwebtoken} {R : Runtime}
    (now : Z) (req : request) :
  (forall g r,
      In r rbac_protected ->
      status (Rbac.app g now r req) = Some 200 ->
      exists token decoded,
        header req = "Bearer " ++ token
        /\ jwt_verify now token (Rbac.JWT_SECRET g) = inr decoded
        /\ calls (Rbac.app g now r req) = [Verify token])
  /\ (forall g r,
        In r demo_protected ->
        status (JwtDemo.app g now r req) = Some 200 ->
        exists token decoded,
          header req = "Bearer " ++ token
          /\ jwt_verify now token (JwtDemo.JWT_SECRET g) = inr decoded
          /\ calls (JwtDemo.app g now r req) = [Verify token]).
Proof.
  split; intros g r Hr Hok.
  - destruct (rbac_verifyJwt_outcome now req g)
      as [(l & resp & m & Hv & H401 & _) | (token & decoded & Hparts & Hd & Hv)].
    + rewrite (rbac_protected_reply now req g r l resp Hr Hv) in Hok.
      unfold status in Hok. simpl in Hok. congruence.
    + exists token, decoded.
      destruct (split_two _ _ _ Hparts) as (Hh & _).
      repeat split; [exact Hh | exact Hd |].
      exact (rbac_protected_calls now req g r _ _ Hr Hv).
  - destruct (demo_verifyJwt_outcome now req g)
      as [(l & resp & m & Hv & H401 & _) | (token & decoded & Hparts & Hd & Hv)].
    + rewrite (demo_protected_reply now req g r l resp Hr Hv) in Hok.
      unfold status in Hok. simpl in Hok. congruence.
    + exists token, decoded.
      destruct (split_two _ _ _ Hparts) as (Hh & _).
      repeat split; [exact Hh | exact Hd |].
      exact (demo_protected_calls now req g r _ _ Hr Hv).
Qed.




(** ** More on [POST /login] *)

(** With distinct keys, [find] returns the one element that satisfies a
    test which pins the key down. *)
Lemma find_by_unique_key {A : Type} (key : A -> string) (f : A -> bool)
    (l : list A) (u : A) :
  NoDup (map key l) ->
  In u l ->
  f u = true ->
  (forall x, f x = true -> key x = key u) ->
  find f l = Some u.
Proof.
  intros Hnd Hin Hu Hkey.
  induction l as [| a l IH]; [contradiction |].
  simpl in *. inversion Hnd as [| ? ? Hnot Hnd']; subst.
  destruct (f a) eqn:Ha.
  - destruct Hin as [-> | Hin]; [reflexivity |].
    exfalso. apply Hnot. rewrite (Hkey a Ha). now apply in_map.
  - destruct Hin as [-> | Hin]; [congruence |]. now apply IH.
Qed.

Lemma str_eq_non_string (s : string) (v : jsval) :
  (forall s', v <> JStr s') -> str_eq s v = false.
Proof.
  intros Hv. apply not_true_is_false. intros H%str_eq_true. now apply (Hv s).
Qed.

(** X8.  A [username] or [password] that is not a string (a number, a
    boolean, an array, an object, [null]) never logs in, whatever the
    credential records are: both servers answer 400 or 401 and do not
    call [jwt.sign]. *)
Theorem non_string_credentials_rejected {J : Jsonwebtoken} {R : Runtime}
    (now : Z) (req : request) :
  (forall s, get_opt (req_body req) "username" <> JStr s)
  \/ (forall s, get_opt (req_body req) "password" <> JStr s) ->
  (forall g,
      Rbac.app g now Rbac.POST_login req
      = bad_request "username and password required in body"
      \/ Rbac.app g now Rbac.POST_login req = invalid_credentials)
  /\ (forall g,
        JwtDemo.app g now JwtDemo.POST_login req
        = bad_request "username and password required"
        \/ JwtDemo.app g now JwtDemo.POST_login req = invalid_credentials).
Proof.
  intros Hns. split; intros g.
  - rewrite rbac_login_route, rbac_login_unfold.
    destruct (negb _ || negb _); [now left | right].
    rewrite find_nothing; [reflexivity |].
    intros u _. apply andb_false_iff.
    destruct Hns as [H | H]; [left | right]; now apply str_eq_non_string.
  - rewrite demo_login_route, demo_login_unfold.
    destruct (negb _ || negb _); [now left | right].
    destruct Hns as [H | H];
      rewrite (str_eq_non_string _ _ H); simpl;
      rewrite ?orb_true_r; reflexivity.
Qed.

(** X9.  The credentials of a record with non-empty username and
    password do log in.  In the RBAC server, whose records have distinct
    usernames, the handler signs the payload of that very record and
    answers 200 with the token, the configured lifetime and the record's
    summary; in the single-user server it signs the demo payload and
    answers 200 with token and lifetime.  If [jwt.sign] throws instead
    (a lifetime string it cannot read), the handler throws with it and
    sends nothing. *)
Theorem listed_credentials_log_in {J : Jsonwebtoken} {R : Runtime}
    (now : Z) (req : request) :
  let usr := get_opt (req_body req) "username" in
  let pwd := get_opt (req_body req) "password" in
  (forall g u,
      NoDup (map Rbac.username (Rbac.DEMO_USERS g)) ->
      In u (Rbac.DEMO_USERS g) ->
      usr = JStr (Rbac.username u) -> pwd = JStr (Rbac.password u) ->
      Rbac.username u <> "" -> Rbac.password u <> "" ->
      Rbac.app g now Rbac.POST_login req
      = ([Sign (Rbac.login_payload u)],
         match jwt_sign now (Rbac.login_payload u)
                        (Rbac.JWT_SECRET g) (Rbac.JWT_EXPIRES_IN g) with
         | inr token =>
             Respond {| res_status := 200;
                        res_body :=
                          JObj [("token", JStr token);
                                ("expiresIn", JStr (Rbac.JWT_EXPIRES_IN g));
                                ("user", Rbac.login_payload u)] |}
         | inl message => Throw message
         end))
  /\ (forall g,
        let u := JwtDemo.DEMO_USER g in
        usr = JStr (JwtDemo.username u) -> pwd = JStr (JwtDemo.password u) ->
        JwtDemo.username u <> "" -> JwtDemo.password u <> "" ->
        JwtDemo.app g now JwtDemo.POST_login req
        = ([Sign (JwtDemo.login_payload g)],
           match jwt_sign now (JwtDemo.login_payload g)
                          (JwtDemo.JWT_SECRET g) (JwtDemo.JWT_EXPIRES_IN g) with
           | inr token =>
               Respond {| res_status := 200;
                          res_body :=
                            JObj [("token", JStr token);
                                  ("expiresIn",
                                   JStr (JwtDemo.JWT_EXPIRES_IN g))] |}
           | inl message => Throw message
           end)).
Proof.
  cbv zeta. split.
  - intros g u Hnd Hin Hu Hp Hune Hpne.
    rewrite rbac_login_route, rbac_login_unfold, Hu, Hp. simpl.
    apply String.eqb_neq in Hune, Hpne. rewrite Hune, Hpne. simpl.
    rewrite (find_by_unique_key Rbac.username _ _ u Hnd Hin); [reflexivity | |].
    + now rewrite !String.eqb_refl.
    + now intros x [->%String.eqb_eq _]%andb_prop.
  - intros g Hu Hp Hune Hpne.
    rewrite demo_login_route, demo_login_unfold, Hu, Hp. simpl.
    apply String.eqb_neq in Hune, Hpne. rewrite Hune, Hpne. simpl.
    now rewrite !String.eqb_refl.
Qed.

(** ** Every reply of the two servers *)





(** ** From login to the protected routes *)

Section RoundTrip.
Context {J : Jsonwebtoken} {C : JwtContract J}.

(** What a token handed out by the RBAC [/login] was signed for. *)
Lemma rbac_issued (g : Rbac.globals) (t0 : Z) (req : request) (token : string)
    {R : Runtime} :
  token_of (Rbac.app g t0 Rbac.POST_login req) = Some token ->
  exists u exp,
    In u (Rbac.DEMO_USERS g)
    /\ get_opt (req_body req) "username" = JStr (Rbac.username u)
    /\ get_opt (req_body req) "password" = JStr (Rbac.password u)
    /\ jwt_sign t0 (Rbac.login_payload u) (Rbac.JWT_SECRET g)
                (Rbac.JWT_EXPIRES_IN g) = inr token
    /\ jwt_expiry t0 (Rbac.JWT_EXPIRES_IN g) = Some exp.
Proof.
  rewrite rbac_login_route, rbac_login_unfold.
  destruct (negb _ || negb _); [discriminate |].
  destruct (find _ _) as [u |] eqn:Hfind; [| discriminate].
  destruct (jwt_sign _ _ _ _) as [m | token'] eqn:Hs; [discriminate |].
  intros [= <-].
  destruct (sign_expiry _ _ _ _ _ Hs) as [exp Hexp].
  apply find_some in Hfind as [Hin [H1 H2]%andb_prop].
  apply str_eq_true in H1, H2. exists u, exp. auto.
Qed.

Lemma demo_issued (g : JwtDemo.globals) (t0 : Z) (req : request) (token : string) :
  token_of (JwtDemo.app g t0 JwtDemo.POST_login req) = Some token ->
  exists exp,
    jwt_sign t0 (JwtDemo.login_payload g) (JwtDemo.JWT_SECRET g)
             (JwtDemo.JWT_EXPIRES_IN g) = inr token
    /\ jwt_expiry t0 (JwtDemo.JWT_EXPIRES_IN g) = Some exp.
Proof.
  rewrite demo_login_route, demo_login_unfold.
  destruct (negb _ || negb _); [discriminate |].
  destruct (negb _ || negb _); [discriminate |].
  destruct (jwt_sign _ _ _ _) as [m | token'] eqn:Hs; [discriminate |].
  intros [= <-].
  destruct (sign_expiry _ _ _ _ _ Hs) as [exp Hexp]. now exists exp.
Qed.

(** A signed token presented in time passes either [verifyJwt] that
    holds the signing secret. *)
Lemma presented_in_time (t0 t exp : Z) (fields : list (string * string))
    (secret expiresIn token : string) (req : request) :
  plain fields ->
  jwt_sign t0 (string_object fields) secret expiresIn = inr token ->
  jwt_expiry t0 expiresIn = Some exp ->
  (t < exp)%Z ->
  req_authorization req = Some ("Bearer " ++ token) ->
  let passed :=
    ([Verify token],
     Next (set_user req
             (JObj (map (fun kv => (fst kv, JStr (snd kv))) fields
                    ++ registered t0 exp)%list))) in
  (forall g, Rbac.JWT_SECRET g = secret -> Rbac.verifyJwt g t req = passed)
  /\ (forall g, JwtDemo.JWT_SECRET g = secret -> JwtDemo.verifyJwt g t req = passed).
Proof.
  intros Hplain Hsign Hexp Ht Hh. cbv zeta.
  pose proof (sign_one_word _ _ _ _ _ Hsign) as Hword.
  split; intros g <-.
  - rewrite (rbac_verifyJwt_bearer t req g token Hword Hh).
    exact (signed_then_checked t0 t exp _ _ _ _ req Hplain Hsign Hexp Ht).
  - rewrite (demo_verifyJwt_bearer t req g token Hword Hh).
    exact (signed_then_checked t0 t exp _ _ _ _ req Hplain Hsign Hexp Ht).
Qed.
End RoundTrip.

Lemma passes_role_string (allowed : list string) (props : list (string * jsval))
    (r : string) :
  assoc "role" props = JStr r ->
  passes allowed (JObj props)
  = negb (r =? "") && existsb (fun s => s =? r) allowed.
Proof. unfold passes, get_opt. simpl. now intros ->. Qed.

Lemma admin_only (r : string) :
  negb (r =? "") && existsb (fun s => s =? r) ["admin"] = (r =? "admin").
Proof.
  cbn -[String.eqb]. rewrite orb_false_r, (String.eqb_sym "admin" r).
  destruct (String.eqb_spec r "admin") as [-> | _]; [reflexivity |].
  apply andb_false_r.
Qed.

Lemma moderator_or_admin (r : string) :
  negb (r =? "") && existsb (fun s => s =? r) ["moderator"; "admin"]
  = (r =? "moderator") || (r =? "admin").
Proof.
  cbn -[String.eqb].
  rewrite orb_false_r, (String.eqb_sym "admin" r), (String.eqb_sym "moderator" r).
  destruct (String.eqb_spec r "moderator") as [-> | _]; [reflexivity |].
  destruct (String.eqb_spec r "admin") as [-> | _]; [reflexivity |].
  apply andb_false_r.
Qed.

(** X12.  From login to the gate, in the RBAC server.  The token that
    [/login] hands out for a record carries that record's role to every
    later request that presents it before its expiry, on any instance
    with the same secret: [/profile] answers 200 with the signed payload
    and its [iat] and [exp]; [/admin] answers 200 if the record's role is
    "admin" and 403 otherwise; [/moderator] and [/moderation/action]
    answer 200 if it is "moderator" or "admin" and 403 otherwise. *)
Theorem login_then_role_gate
    {J : Jsonwebtoken} {C : JwtContract J} {R : Runtime}
    (g : Rbac.globals) (t0 : Z) (login_req : request) (token : string) :
  token_of (Rbac.app g t0 Rbac.POST_login login_req) = Some token ->
  exists u exp,
    In u (Rbac.DEMO_USERS g)
    /\ get_opt (req_body login_req) "username" = JStr (Rbac.username u)
    /\ jwt_expiry t0 (Rbac.JWT_EXPIRES_IN g) = Some exp
    /\ forall g' t req,
        Rbac.JWT_SECRET g' = Rbac.JWT_SECRET g ->
        (t < exp)%Z ->
        req_authorization req = Some ("Bearer " ++ token) ->
        let moderator := (Rbac.role u =? "moderator") || (Rbac.role u =? "admin") in
        sent (Rbac.app g' t Rbac.GET_profile req)
        = Some {| res_status := 200;
                  res_body :=
                    JObj [("message", JStr "Profile data");
                          ("user",
                           JObj [("username", JStr (Rbac.username u));
                                 ("role", JStr (Rbac.role u));
                                 ("name", JStr (Rbac.name u));
                                 ("iat", JNum (num t0));
                                 ("exp", JNum (num exp))])] |}
        /\ status (Rbac.app g' t Rbac.GET_admin req)
           = Some (if Rbac.role u =? "admin" then 200%Z else 403%Z)
        /\ status (Rbac.app g' t Rbac.GET_moderator req)
           = Some (if moderator then 200%Z else 403%Z)
        /\ status (Rbac.app g' t Rbac.POST_moderation_action req)
           = Some (if moderator then 200%Z else 403%Z).
Proof.
  intros Htok.
  destruct (rbac_issued g t0 login_req token Htok)
    as (u & exp & Hin & Hu & _ & Hsign & Hexp).
  exists u, exp. split; [exact Hin | split; [exact Hu | split; [exact Hexp |]]].
  intros g' t req Hsecret Ht Hh moderator. subst moderator.
  destruct (presented_in_time t0 t exp _ _ _ _ req
              (rbac_payload_plain u) Hsign Hexp Ht Hh) as [Hv _].
  specialize (Hv g' Hsecret).
  destruct (gated_routes_status g' t req _ _ Hv) as (Hm & Ha & Hp).
  rewrite Hm, Ha, Hp. simpl req_user.
  rewrite !(passes_role_string _ _ (Rbac.role u)) by reflexivity.
  rewrite admin_only, moderator_or_admin.
  unfold Rbac.app. rewrite Hv. repeat split.
Qed.

(** X13.  From login to the protected routes, in the single-user
    server.  Before its expiry and under the same secret, the token of
    [/login] makes [/protected] answer 200 with the signed payload and
    its [iat] and [exp], and [/profile] answer 200 with the username,
    name and email that were signed and the fixed [joined] date: the
    profile comes out of the token, not out of the record the answering
    instance holds. *)
Theorem login_then_profile
    {J : Jsonwebtoken} {C : JwtContract J}
    (g : JwtDemo.globals) (t0 : Z) (login_req : request) (token : string) :
  token_of (JwtDemo.app g t0 JwtDemo.POST_login login_req) = Some token ->
  exists exp,
    jwt_expiry t0 (JwtDemo.JWT_EXPIRES_IN g) = Some exp
    /\ forall g' t req,
        JwtDemo.JWT_SECRET g' = JwtDemo.JWT_SECRET g ->
        (t < exp)%Z ->
        req_authorization req = Some ("Bearer " ++ token) ->
        let u := JwtDemo.DEMO_USER g in
        sent (JwtDemo.app g' t JwtDemo.GET_protected req)
        = Some {| res_status := 200;
                  res_body :=
                    JObj [("message", JStr "You accessed a protected resource");
                          ("user",
                           JObj [("username", JStr (JwtDemo.username u));
                                 ("name", JStr (JwtDemo.name u));
                                 ("email", JStr (JwtDemo.email u));
                                 ("iat", JNum (num t0));
                                 ("exp", JNum (num exp))])] |}
        /\ sent (JwtDemo.app g' t JwtDemo.GET_profile req)
           = Some {| res_status := 200;
                     res_body :=
                       JObj [("profile",
                              JObj [("username", JStr (JwtDemo.username u));
                                    ("name", JStr (JwtDemo.name u));
                                    ("email", JStr (JwtDemo.email u));
                                    ("joined", JStr "2024-01-01")])] |}.
Proof.
  intros Htok.
  destruct (demo_issued g t0 login_req token Htok) as (exp & Hsign & Hexp).
  exists exp. split; [exact Hexp |].
  intros g' t req Hsecret Ht Hh.
  destruct (presented_in_time t0 t exp _ _ _ _ req
              (demo_payload_plain (JwtDemo.DEMO_USER g)) Hsign Hexp Ht Hh)
    as [_ Hv].
  unfold JwtDemo.app. rewrite (Hv g' Hsecret). split; reflexivity.
Qed.

(** X14.  Tokens cross between the two servers when the secrets agree,
    as they do when both start from the same environment.  A token of
    the single-user [/login], which carries no role, opens [/profile] of
    the RBAC server and is refused with 403 on its three role-gated
    routes; a token of the RBAC [/login] opens [/profile] of the
    single-user server, which shows its username and name and no
    email. *)
Theorem tokens_cross_servers
    {J : Jsonwebtoken} {C : JwtContract J} {R : Runtime} :
  (forall env, Rbac.JWT_SECRET (Rbac.start env)
               = JwtDemo.JWT_SECRET (JwtDemo.start env))
  /\ (forall g t0 login_req token,
        token_of (JwtDemo.app g t0 JwtDemo.POST_login login_req) = Some token ->
        exists exp,
          jwt_expiry t0 (JwtDemo.JWT_EXPIRES_IN g) = Some exp
          /\ forall g' t req,
              Rbac.JWT_SECRET g' = JwtDemo.JWT_SECRET g ->
              (t < exp)%Z ->
              req_authorization req = Some ("Bearer " ++ token) ->
              status (Rbac.app g' t Rbac.GET_profile req) = Some 200
              /\ status (Rbac.app g' t Rbac.GET_moderator req) = Some 403
              /\ status (Rbac.app g' t Rbac.GET_admin req) = Some 403
              /\ status (Rbac.app g' t Rbac.POST_moderation_action req) = Some 403)
  /\ (forall g t0 login_req token,
        token_of (Rbac.app g t0 Rbac.POST_login login_req) = Some token ->
        exists u exp,
          In u (Rbac.DEMO_USERS g)
          /\ jwt_expiry t0 (Rbac.JWT_EXPIRES_IN g) = Some exp
          /\ forall g' t req,
              JwtDemo.JWT_SECRET g' = Rbac.JWT_SECRET g ->
              (t < exp)%Z ->
              req_authorization req = Some ("Bearer " ++ token) ->
              sent (JwtDemo.app g' t JwtDemo.GET_profile req)
              = Some {| res_status := 200;
                        res_body :=
                          JObj [("profile",
                                 JObj [("username", JStr (Rbac.username u));
                                       ("name", JStr (Rbac.name u));
                                       ("email", JUndefined);
                                       ("joined", JStr "2024-01-01")])] |}).
Proof.
  split; [reflexivity | split].
  - intros g t0 lreq token Htok.
    destruct (demo_issued g t0 lreq token Htok) as (exp & Hsign & Hexp).
    exists exp. split; [exact Hexp |].
    intros g' t req Hsecret Ht Hh.
    destruct (presented_in_time t0 t exp _ _ _ _ req
                (demo_payload_plain (JwtDemo.DEMO_USER g)) Hsign Hexp Ht Hh)
      as [Hv _].
    specialize (Hv g' Hsecret).
    destruct (gated_routes_status g' t req _ _ Hv) as (Hm & Ha & Hp).
    rewrite Hm, Ha, Hp. unfold Rbac.app. rewrite Hv. repeat split.
  - intros g t0 lreq token Htok.
    destruct (rbac_issued g t0 lreq token Htok)
      as (u & exp & Hin & _ & _ & Hsign & Hexp).
    exists u, exp. repeat split; auto.
    intros g' t req Hsecret Ht Hh.
    destruct (presented_in_time t0 t exp _ _ _ _ req
                (rbac_payload_plain u) Hsign Hexp Ht Hh) as [_ Hv].
    unfold JwtDemo.app. now rewrite (Hv g' Hsecret).
Qed.

(** ** The form, event after event *)

Lemma field_assign_same (k v : string) (o : list (string * string)) :
  Form.field k (Form.assign k v o) = Some v.
Proof.
  induction o as [| [k' v'] o IH]; simpl.
  - now rewrite String.eqb_refl.
  - destruct (String.eqb_spec k' k) as [-> | Hk]; simpl.
    + now rewrite String.eqb_refl.
    + apply String.eqb_neq in Hk. now rewrite Hk.
Qed.

Lemma field_assign_other (k k' v : string) (o : list (string * string)) :
  k' <> k -> Form.field k' (Form.assign k v o) = Form.field k' o.
Proof.
  intros Hne. induction o as [| [a b] o IH]; simpl.
  - apply not_eq_sym, String.eqb_neq in Hne. now rewrite Hne.
  - destruct (String.eqb_spec a k) as [-> | Ha]; simpl.
    + apply not_eq_sym, String.eqb_neq in Hne. now rewrite Hne.
    + now rewrite IH.
Qed.

(** X15.  Typing into a field: after [handleChange] the form data holds
    the typed value under the input's name, every other field is as it
    was, and the error message is untouched. *)
Theorem typed_value_stored (name value : string) (st : Form.state) :
  let st' := Form.handleChange name value st in
  Form.field name (Form.formData st') = Some value
  /\ (forall other, other <> name ->
                    Form.field other (Form.formData st')
                    = Form.field other (Form.formData st))
  /\ Form.error st' = Form.error st.
Proof.
  cbv zeta. unfold Form.handleChange. simpl. repeat split.
  - apply field_assign_same.
  - intros other Hne. now apply field_assign_other.
Qed.

Lemma typed_value_stored_witness :
  Session.displayed Session.password_input
    (Form.handleChange "username" "ann" Form.initial)
  = Session.displayed Session.password_input Form.initial.
Proof.
  apply (proj1 (proj2 (typed_value_stored "username" "ann" Form.initial))
           "password").
  discriminate.
Defined.

(** The state and effects of a run, one event at a time. *)
Lemma run_cons (e : Session.event) (es : list Session.event) (st : Form.state) :
  Session.run (e :: es) st
  = (fst (Session.run es (fst (Session.dispatch st e))),
     (snd (Session.dispatch st e)
      ++ snd (Session.run es (fst (Session.dispatch st e))))%list).
Proof.
  cbn [Session.run]. destruct (Session.dispatch st e) as [st1 out1].
  cbn [fst snd]. now destruct (Session.run es st1).
Qed.

Lemma handleSubmit_formData (st : Form.state) :
  Form.formData (fst (Form.handleSubmit st)) = Form.formData st.
Proof. unfold Form.handleSubmit. now destruct (_ || _). Qed.

(** X16.  The form data keeps its shape.  From a state whose form data
    is the two fields [username] and [password], any sequence of typing
    and submitting leaves exactly these two fields, in this order, each
    holding the value last typed into its input (or its first value when
    nothing was typed there); submitting changes neither. *)
Theorem form_data_tracks_inputs (es : list Session.event) (st : Form.state)
    (u0 p0 : string) :
  Form.formData st = [("username", u0); ("password", p0)] ->
  Form.formData (fst (Session.run es st))
  = [("username", Session.last_typed Session.username_input es u0);
     ("password", Session.last_typed Session.password_input es p0)].
Proof.
  revert st u0 p0. induction es as [| e es IH]; intros st u0 p0 Hst.
  - exact Hst.
  - rewrite run_cons. simpl fst. destruct e as [[|] value |]; simpl.
    + apply IH. simpl. now rewrite Hst.
    + apply IH. simpl. now rewrite Hst.
    + apply IH. now rewrite handleSubmit_formData.
Qed.

Lemma form_data_tracks_inputs_witness :
  Form.formData
    (fst (Session.run
            [Session.Typed Session.username_input "a";
             Session.Submitted;
             Session.Typed Session.password_input "pw";
             Session.Typed Session.username_input "ann"]
            Form.initial))
  = [("username", "ann"); ("password", "pw")].
Proof.
  exact (form_data_tracks_inputs
           [Session.Typed Session.username_input "a";
            Session.Submitted;
            Session.Typed Session.password_input "pw";
            Session.Typed Session.username_input "ann"]
           Form.initial "" "" eq_refl).
Defined.

Lemma handleSubmit_two_fields (st : Form.state) (u p : string) :
  Form.formData st = [("username", u); ("password", p)] ->
  Form.handleSubmit st
  = if (u =? "") || (p =? "") then
      ({| Form.formData := Form.formData st; Form.error := Form.warning |},
       [Form.PreventDefault])
    else
      ({| Form.formData := Form.formData st; Form.error := "" |},
       [Form.PreventDefault;
        Form.ConsoleLog "Username:" u;
        Form.ConsoleLog "Password:" p;
        Form.Alert ("Logged in as: " ++ u)]).
Proof. unfold Form.handleSubmit. now intros ->. Qed.

(** X17.  What a submit does after any history.  Starting from the
    empty form, whatever was typed and submitted before, a submit is
    decided by the values last typed: if either is empty it shows the
    warning and does nothing else; otherwise it shows no message, logs
    both values and alerts "Logged in as: " followed by the username last
    typed. *)
Theorem submit_after_history (es : list Session.event) :
  let u := Session.last_typed Session.username_input es "" in
  let p := Session.last_typed Session.password_input es "" in
  let submitted := Form.handleSubmit (fst (Session.run es Form.initial)) in
  snd submitted
  = (if (u =? "") || (p =? "") then [Form.PreventDefault]
     else [Form.PreventDefault;
           Form.ConsoleLog "Username:" u;
           Form.ConsoleLog "Password:" p;
           Form.Alert ("Logged in as: " ++ u)])
  /\ Form.shown (fst submitted)
     = (if (u =? "") || (p =? "") then Some Form.warning else None).
Proof.
  cbv zeta.
  rewrite (handleSubmit_two_fields _ _ _
             (form_data_tracks_inputs es Form.initial "" "" eq_refl)).
  destruct (_ || _); split; reflexivity.
Qed.

(** X18.  Submitting twice in a row is submitting once: the second
    submit leaves the state of the first and has the same effects. *)
Theorem handleSubmit_twice (st : Form.state) :
  Form.handleSubmit (fst (Form.handleSubmit st)) = Form.handleSubmit st.
Proof.
  unfold Form.handleSubmit at 2 3.
  destruct (_ || _) eqn:E; unfold Form.handleSubmit; simpl; now rewrite E.
Qed.

(** X19.  Typing alone has no effect outside the form data: it raises
    no alert, logs nothing, and leaves the error message as the last
    submit set it, so a warning stays on screen until a later submit
    succeeds. *)
Theorem typing_keeps_message (es : list Session.event) (st : Form.state) :
  Session.only_typing es ->
  snd (Session.run es st) = []
  /\ Form.error (fst (Session.run es st)) = Form.error st
  /\ Form.shown (fst (Session.run es st)) = Form.shown st.
Proof.
  intros Hes. revert st.
  induction Hes as [| e es He _ IH]; intros st.
  - repeat split.
  - rewrite run_cons. destruct e as [i value |]; [| contradiction].
    simpl. destruct (IH (Form.handleChange (Session.input_name i) value st))
      as (Hout & Herr & Hshown).
    now repeat split.
Qed.

Lemma typing_keeps_message_witness :
  Form.shown
    (fst (Session.run
            [Session.Typed Session.username_input "ann"]
            (fst (Form.handleSubmit Form.initial))))
  = Form.shown (fst (Form.handleSubmit Form.initial)).
Proof.
  apply (typing_keeps_message
           [Session.Typed Session.username_input "ann"]
           (fst (Form.handleSubmit Form.initial))).
  repeat constructor. discriminate.
Defined.

(** ** Start-up *)

Lemma env_or_default (x : option string) (fallback : string) :
  fallback <> "" ->
  env_or x fallback <> ""
  /\ (env_or x fallback = fallback
      <-> match x with
          | None => True
          | Some s => s = "" \/ s = fallback
          end).
Proof.
  intros Hf. unfold env_or. destruct x as [s |]; [| tauto].
  destruct (String.eqb_spec s "") as [-> | Hs]; [tauto |].
  split; [exact Hs | tauto].
Qed.

(** X20.  The secret a server starts with is never empty: it is the
    [JWT_SECRET] of the environment when that is set and non-empty, and
    the built-in default otherwise.  The start-up log says so
    truthfully: the RBAC server prints its warning, and the single-user
    server prints "(default - change it!)" instead of "(from env)",
    exactly when the variable is unset, empty, or spelled like the
    default. *)
Theorem default_secret_is_announced {R : Runtime} (env : process_env) :
  let by_default :=
    match env_JWT_SECRET env with
    | None => True
    | Some s => s = "" \/ s = Startup.default_secret
    end in
  Rbac.JWT_SECRET (Rbac.start env) <> ""
  /\ JwtDemo.JWT_SECRET (JwtDemo.start env) <> ""
  /\ (forall s, env_JWT_SECRET env = Some s -> s <> "" ->
                Rbac.JWT_SECRET (Rbac.start env) = s
                /\ JwtDemo.JWT_SECRET (JwtDemo.start env) = s)
  /\ (In Startup.rbac_warning (Startup.rbac_listen (Rbac.start env))
      <-> by_default)
  /\ (last (Startup.demo_listen (JwtDemo.start env)) ""
      = "JWT secret: (default - change it!)" <-> by_default)
  /\ (last (Startup.demo_listen (JwtDemo.start env)) ""
      = "JWT secret: (from env)" <-> ~ by_default).
Proof.
  cbv zeta.
  assert (Hd : Startup.default_secret <> "") by discriminate.
  destruct (env_or_default (env_JWT_SECRET env) _ Hd) as [Hne Hiff].
  split; [exact Hne | split; [exact Hne |]].
  split.
  { intros s Hs Hnz. unfold Rbac.start, JwtDemo.start. simpl.
    rewrite Hs. unfold env_or. apply String.eqb_neq in Hnz. now rewrite Hnz. }
  unfold Startup.rbac_listen, Startup.demo_listen.
  change (Rbac.JWT_SECRET (Rbac.start env))
    with (env_or (env_JWT_SECRET env) Startup.default_secret).
  change (JwtDemo.JWT_SECRET (JwtDemo.start env))
    with (env_or (env_JWT_SECRET env) Startup.default_secret).
  change "please_change_this_secret_in_prod" with Startup.default_secret.
  rewrite <- Hiff.
  destruct (String.eqb_spec (env_or (env_JWT_SECRET env) Startup.default_secret)
              Startup.default_secret) as [E | E].
  - split; [| split]; split.
    + now intros _.
    + intros _. simpl. auto 10.
    + now intros _.
    + now intros _.
    + simpl. discriminate.
    + intros H. now elim H.
  - split; [| split]; split.
    + simpl. intros [H | [H | [H | [H | [H | []]]]]]; discriminate H.
    + intros H. now elim E.
    + simpl. discriminate.
    + intros H. now elim E.
    + now intros _.
    + now intros _.
Qed.

(** ** The further theorems on concrete requests *)

Lemma default_secret_is_announced_witness :
  Rbac.JWT_SECRET
    (Rbac.start {| env_PORT := None;
                   env_JWT_SECRET := Some "s3cret";
                   env_JWT_EXPIRES_IN := None |}) = "s3cret".
Proof.
  destruct (default_secret_is_announced (R := Table.runtime)
              {| env_PORT := None;
                 env_JWT_SECRET := Some "s3cret";
                 env_JWT_EXPIRES_IN := None |}) as (_ & _ & H & _).
  destruct (H "s3cret" eq_refl) as [Hr _]; [discriminate | exact Hr].
Defined.

Lemma rejected_token_unauthorized_witness :
  Rbac.app (J := Table.jwt) (R := Table.runtime)
    (Rbac.start Table.no_env) 7200 Rbac.GET_admin (Table.bearer "admin1.2h")
  = invalid_token "admin1.2h" "jwt expired"
  /\ JwtDemo.app (J := Table.jwt)
       (JwtDemo.start Table.no_env) 0 JwtDemo.GET_profile (Table.bearer "forged")
     = invalid_token "forged" "jwt malformed".
Proof.
  split.
  - apply (proj1 (rejected_token_unauthorized
                    (J := Table.jwt) (R := Table.runtime) 7200
                    (Table.bearer "admin1.2h") "admin1.2h" "jwt expired" eq_refl));
      [reflexivity | simpl; auto].
  - apply (proj2 (rejected_token_unauthorized
                    (J := Table.jwt) (R := Table.runtime) 0
                    (Table.bearer "forged") "forged" "jwt malformed" eq_refl));
      [reflexivity | simpl; auto].
Defined.

Lemma no_access_without_verified_token_witness :
  exists token decoded,
    header (Table.bearer "alice.2h") = "Bearer " ++ token
    /\ jwt_verify (Jsonwebtoken := Table.jwt) 100 token Table.secret = inr decoded.
Proof.
  destruct (proj1 (no_access_without_verified_token
                     (J := Table.jwt) (R := Table.runtime) 100
                     (Table.bearer "alice.2h"))
                  (Rbac.start Table.no_env) Rbac.GET_profile
                  (or_introl eq_refl) eq_refl)
    as (token & decoded & Hh & Hv & _).
  now exists token, decoded.
Defined.



Lemma non_string_credentials_rejected_witness :
  let req := Table.credentials (JArr [JStr "admin1"]) (JStr "adminpass") in
  (Rbac.app (J := Table.jwt) (R := Table.runtime)
     (Rbac.start Table.no_env) 0 Rbac.POST_login req
   = bad_request "username and password required in body"
   \/ Rbac.app (J := Table.jwt) (R := Table.runtime)
        (Rbac.start Table.no_env) 0 Rbac.POST_login req = invalid_credentials).
Proof.
  cbv zeta.
  apply (non_string_credentials_rejected (J := Table.jwt) (R := Table.runtime) 0
           (Table.credentials (JArr [JStr "admin1"]) (JStr "adminpass"))).
  left. intros s. discriminate.
Defined.

Lemma listed_credentials_log_in_witness :
  status (Rbac.app (J := Table.jwt) (R := Table.runtime)
            (Rbac.start Table.no_env) 0 Rbac.POST_login
            (Table.credentials (JStr "mod1") (JStr "modpass"))) = Some 200
  /\ status (JwtDemo.app (J := Table.jwt)
               (JwtDemo.start Table.no_env) 0 JwtDemo.POST_login
               (Table.credentials (JStr "demo") (JStr "secret123"))) = Some 200.
Proof.
  split.
  - rewrite (proj1 (listed_credentials_log_in
                      (J := Table.jwt) (R := Table.runtime) 0
                      (Table.credentials (JStr "mod1") (JStr "modpass")))
                   (Rbac.start Table.no_env)
                   {| Rbac.username := "mod1"; Rbac.password := "modpass";
                      Rbac.role := "moderator"; Rbac.name := "Moderator One" |}).
    + reflexivity.
    + simpl. repeat constructor; simpl; intuition discriminate.
    + simpl. auto.
    + reflexivity.
    + reflexivity.
    + discriminate.
    + discriminate.
  - rewrite (proj2 (listed_credentials_log_in
                      (J := Table.jwt) (R := Table.runtime) 0
                      (Table.credentials (JStr "demo") (JStr "secret123")))
                   (JwtDemo.start Table.no_env));
      [reflexivity | reflexivity | reflexivity | discriminate | discriminate].
Defined.


Lemma login_then_role_gate_witness :
  exists exp,
    jwt_expiry (Jsonwebtoken := Table.jwt) 0 "2h" = Some exp
    /\ status (Rbac.app (J := Table.jwt) (R := Table.runtime)
                 (Rbac.start Table.no_env) (exp - 1) Rbac.GET_profile
                 (Table.bearer "alice.2h")) = Some 200.
Proof.
  destruct (login_then_role_gate (J := Table.jwt) (C := table_contract)
              (R := Table.runtime) (Rbac.start Table.no_env) 0
              (Table.credentials (JStr "alice") (JStr "alicepw"))
              "alice.2h" eq_refl)
    as (u & exp & _ & _ & Hexp & Hlater).
  exists exp. split; [exact Hexp |].
  destruct (Hlater (Rbac.start Table.no_env) (exp - 1)%Z (Table.bearer "alice.2h")
              eq_refl ltac:(lia) eq_refl) as (Hprofile & _).
  unfold status. now rewrite Hprofile.
Defined.

Lemma login_then_profile_witness :
  exists exp,
    jwt_expiry (Jsonwebtoken := Table.jwt) 0 "1h" = Some exp
    /\ status (JwtDemo.app (J := Table.jwt)
                 (JwtDemo.start Table.no_env) (exp - 1) JwtDemo.GET_profile
                 (Table.bearer "demo.1h")) = Some 200.
Proof.
  destruct (login_then_profile (J := Table.jwt) (C := table_contract)
              (JwtDemo.start Table.no_env) 0
              (Table.credentials (JStr "demo") (JStr "secret123"))
              "demo.1h" eq_refl)
    as (exp & Hexp & Hlater).
  exists exp. split; [exact Hexp |].
  destruct (Hlater (JwtDemo.start Table.no_env) (exp - 1)%Z (Table.bearer "demo.1h")
              eq_refl ltac:(lia) eq_refl) as (_ & Hprofile).
  unfold status. now rewrite Hprofile.
Defined.

Lemma tokens_cross_servers_witness :
  exists exp,
    jwt_expiry (Jsonwebtoken := Table.jwt) 0 "1h" = Some exp
    /\ status (Rbac.app (J := Table.jwt) (R := Table.runtime)
                 (Rbac.start Table.no_env) (exp - 1) Rbac.GET_admin
                 (Table.bearer "demo.1h")) = Some 403.
Proof.
  destruct (proj1 (proj2 (tokens_cross_servers
                            (J := Table.jwt) (C := table_contract)
                            (R := Table.runtime)))
                  (JwtDemo.start Table.no_env) 0
                  (Table.credentials (JStr "demo") (JStr "secret123"))
                  "demo.1h" eq_refl)
    as (exp & Hexp & Hlater).
  exists exp. split; [exact Hexp |].
  destruct (Hlater (Rbac.start Table.no_env) (exp - 1)%Z (Table.bearer "demo.1h")
              eq_refl ltac:(lia) eq_refl) as (_ & _ & Hadmin & _).
  exact Hadmin.
Defined.

(** ** What the handlers look at *)

(** X21.  [/login] reads the [username] and [password] fields of the
    body and nothing else of the request: two requests that agree on
    these two fields get the same reply and make the same library call,
    whatever their other body fields, their [Authorization] header or
    their [req.user]. *)
Theorem login_reads_two_fields {J : Jsonwebtoken} {R : Runtime}
    (now : Z) (req req' : request) :
  get_opt (req_body req) "username" = get_opt (req_body req') "username" ->
  get_opt (req_body req) "password" = get_opt (req_body req') "password" ->
  (forall g, Rbac.app g now Rbac.POST_login req
             = Rbac.app g now Rbac.POST_login req')
  /\ (forall g, JwtDemo.app g now JwtDemo.POST_login req
                = JwtDemo.app g now JwtDemo.POST_login req').
Proof.
  intros Hu Hp. split; intros g.
  - rewrite !rbac_login_route, !rbac_login_unfold. now rewrite Hu, Hp.
  - rewrite !demo_login_route, !demo_login_unfold. now rewrite Hu, Hp.
Qed.

Lemma login_reads_two_fields_witness :
  Rbac.app (J := Table.jwt) (R := Table.runtime) (Rbac.start Table.no_env) 0
    Rbac.POST_login
    {| req_authorization := Some "Bearer forged";
       req_body := JObj [("role", JStr "admin"); ("username", JStr "alice");
                         ("password", JStr "alicepw")];
       req_user := JObj [("role", JStr "admin")] |}
  = Rbac.app (J := Table.jwt) (R := Table.runtime) (Rbac.start Table.no_env) 0
      Rbac.POST_login (Table.credentials (JStr "alice") (JStr "alicepw")).
Proof.
  apply (login_reads_two_fields (J := Table.jwt) (R := Table.runtime));
    reflexivity.
Defined.

Lemma bearer_parts_iff (h token : string) :
  split h = ["Bearer"; token] <-> h = "Bearer " ++ token /\ spaceless token.
Proof.
  split.
  - intros H. destruct (split_two _ _ _ H) as (Hh & _ & Hfree). now split.
  - intros [-> Hfree]. apply split_bearer_token. now apply split_one_word.
Qed.

(** The calls of [verifyJwt], read off its three cases. *)
Lemma verify_calls_exact {J : Jsonwebtoken} (now : Z) (req : request)
    (secret token : string) (v : handler request) :
  (header req = "" /\ v = missing_header)
  \/ (header req <> ""
      /\ (List.length (split (header req)) <> 2%nat
          \/ nth_error (split (header req)) 0 <> Some "Bearer")
      /\ v = malformed_header)
  \/ (exists token',
        split (header req) = ["Bearer"; token']
        /\ v = checked now req secret token') ->
  (calls v = [Verify token]
   <-> header req = "Bearer " ++ token /\ spaceless token)
  /\ (calls v = [] \/ exists token', calls v = [Verify token']).
Proof.
  rewrite <- bearer_parts_iff.
  intros [[E ->] | [(_ & Hbad & ->) | (token' & Hparts & ->)]].
  - split; [| now left]. split; [discriminate |].
    rewrite E. discriminate.
  - split; [| now left]. split; [discriminate |].
    intros H. rewrite H in Hbad. now destruct Hbad as [Hbad | Hbad].
  - split; [| right; now exists token'].
    rewrite Hparts. unfold checked, calls. simpl.
    split; now intros [= ->].
Qed.

(** X22.  [jwt.verify] is called exactly on well-formed headers.
    Either copy of [verifyJwt] hands a token to [jwt.verify] if and only
    if the header is "Bearer ", one space included, followed by that
    token, and the token holds no space (it may be empty); on any other
    header the library is not called at all. *)
Theorem verify_called_on_bearer_headers {J : Jsonwebtoken}
    (now : Z) (req : request) (token : string) :
  let precise v :=
    (calls v = [Verify token]
     <-> header req = "Bearer " ++ token /\ spaceless token)
    /\ (calls v = [] \/ exists token', calls v = [Verify token']) in
  (forall g, precise (Rbac.verifyJwt g now req))
  /\ (forall g, precise (JwtDemo.verifyJwt g now req)).
Proof.
  cbv zeta. split; intros g.
  - exact (verify_calls_exact now req (Rbac.JWT_SECRET g) token _
             (rbac_verifyJwt_cases now req g)).
  - exact (verify_calls_exact now req (JwtDemo.JWT_SECRET g) token _
             (demo_verifyJwt_cases now req g)).
Qed.
